(** * py_webdav_stress_test: a bounded-concurrency HEAD load generator

    A shallow embedding of [py_webdav_stress_test.py] (the coroutine
    [fetch_head] and the driver [main]) together with the properties of its
    bookkeeping, its concurrency gate, its dispatch loop and its report.

    Conventions of the embedding:
    - Python [int] is [Z]; Python [str] is [string] (a byte string; comparing
      UTF-8 bytes lexicographically agrees with comparing code points).
    - [time.perf_counter()] readings are rationals ([Q]); the subtraction
      [end_time - start_time] is kept as the term [Qminus end_time start_time].
    - the duration of the whole run and the requests-per-second value are
      IEEE 754 binary64 numbers ([spec_float] with precision 53 and maximal
      exponent 1024), as Python's [float] is.
    - [collections.Counter] is a [gmap string Z]; a missing key reads as 0.
    - a Python exception is described by the [except] clauses it matches. *)

From Stdlib Require Import ZArith QArith Ascii String List Lia Sorted Permutation.
From stdpp Require Import base list gmap strings fin_maps sorting.
From Stdlib Require Import SpecFloat.

Local Open Scope Z_scope.

(* ===================================================================== *)
(** ** Python builtins used by the program                               *)
(* ===================================================================== *)

(** The digit characters of [str(int)] and of the [X] presentation type:
    [0-9] then upper-case [A-F]. *)
Definition digit_char (d : Z) : ascii :=
  match d with
  | 0 => "0" | 1 => "1" | 2 => "2" | 3 => "3" | 4 => "4"
  | 5 => "5" | 6 => "6" | 7 => "7" | 8 => "8" | 9 => "9"
  | 10 => "A" | 11 => "B" | 12 => "C" | 13 => "D" | 14 => "E"
  | _ => "F"
  end%char.

(** Positional rendering of a non-negative integer, most significant digit
    first, without leading zeros ([0] renders as one digit).  The recursion
    is on [fuel]; [digits_fuel n] is enough for every base >= 2. *)
Fixpoint digits_go (base : Z) (fuel : nat) (n : Z) (acc : string) : string :=
  let acc' := String (digit_char (n mod base)) acc in
  match fuel with
  | O => acc'
  | S fuel' =>
      if n / base =? 0 then acc' else digits_go base fuel' (n / base) acc'
  end.

Definition digits_fuel (n : Z) : nat := Z.to_nat (Z.log2 n).

Definition render_digits (base : Z) (n : Z) : string :=
  digits_go base (digits_fuel n) n EmptyString.

(** [str(n)] for an [int]. *)
Definition str (n : Z) : string :=
  if n <? 0 then String "-"%char (render_digits 10 (Z.abs n))
  else render_digits 10 n.

(** Reading a decimal numeral back ([int(s)] restricted to plain digits with
    an optional leading minus sign); used to state that [str] loses nothing. *)
Definition digit_value (c : ascii) : option Z :=
  let n := Z.of_N (N_of_ascii c) in
  if (48 <=? n) && (n <=? 57) then Some (n - 48) else None.

Fixpoint parse_digits (s : string) (acc : Z) : option Z :=
  match s with
  | EmptyString => Some acc
  | String c s' =>
      match digit_value c with
      | Some d => parse_digits s' (10 * acc + d)
      | None => None
      end
  end.

Definition parse_int (s : string) : option Z :=
  match s with
  | EmptyString => None
  | String c s' =>
      if Ascii.eqb c "-"%char then
        match s' with
        | EmptyString => None
        | _ => option_map Z.opp (parse_digits s' 0)
        end
      else parse_digits s 0
  end.

(** [c * k]: the character [c] repeated [k] times. *)
Fixpoint copies (c : ascii) (k : nat) : string :=
  match k with
  | O => EmptyString
  | S k' => String c (copies c k')
  end.

(** Zero padding on the left up to [width] characters. *)
Definition zero_pad (width : nat) (s : string) : string :=
  (copies "0"%char (width - String.length s) ++ s)%string.

(** [f"{n:02X}"]: upper-case hexadecimal, zero-padded to width 2; the sign
    of a negative number counts towards the width and precedes the padding. *)
Definition format_02X (n : Z) : string :=
  if n <? 0 then String "-"%char (zero_pad 1 (render_digits 16 (Z.abs n)))
  else zero_pad 2 (render_digits 16 n).

(** [s.rstrip(c)] for a one-character set [c]. *)
Fixpoint rstrip (c : ascii) (s : string) : string :=
  match s with
  | EmptyString => EmptyString
  | String a s' =>
      match rstrip c s' with
      | EmptyString => if Ascii.eqb a c then EmptyString else String a EmptyString
      | r => String a r
      end
  end.

(** [s.endswith(c)] for a one-character [c]. *)
Fixpoint ends_with (c : ascii) (s : string) : bool :=
  match s with
  | EmptyString => false
  | String a EmptyString => Ascii.eqb a c
  | String _ s' => ends_with c s'
  end.

(** [random.randint(a, b)] is [a + randbelow(b - a + 1)]; the generator's
    raw output is the argument [raw], reduced into the requested range. *)
Definition randint (a b : Z) (raw : Z) : Z := a + raw mod (b - a + 1).

(** [range(n)]: [0, 1, ..., n - 1], empty when [n <= 0]. *)
Definition range (n : Z) : list Z := seqZ 0 n.

(** Comparison of strings ([<] on [str]): lexicographic on the characters. *)
Definition str_lt (s1 s2 : string) : bool :=
  match String.compare s1 s2 with Lt => true | _ => false end.

(** Comparison of the pairs produced by [dict.items()]: [<] on tuples
    compares the first components and, when they are equal, the second. *)
Definition item_lt (x y : string * Z) : bool :=
  str_lt x.1 y.1 || (String.eqb x.1 y.1 && (x.2 <? y.2)).

(** [sorted(l)]: a stable sort that only consults [<]. *)
Fixpoint sorted_insert (x : string * Z) (l : list (string * Z)) : list (string * Z) :=
  match l with
  | [] => [x]
  | y :: l' => if item_lt x y then x :: y :: l' else y :: sorted_insert x l'
  end.

Definition sorted (l : list (string * Z)) : list (string * Z) :=
  foldr sorted_insert [] (rev l).

(** No element of the result is [<] its predecessor. *)
Definition not_after (x y : string * Z) : Prop := item_lt y x = false.

(** The order of the report: labels strictly ascending. *)
Definition label_lt (x y : string * Z) : Prop := str_lt x.1 y.1 = true.

(* ===================================================================== *)
(** ** The shared statistics ([stats] in [main])                         *)
(* ===================================================================== *)

(** [counter[key]] on a [Counter]: a missing key reads as [0]. *)
Definition counter_get (c : gmap string Z) (key : string) : Z :=
  default 0 (c !! key).

(** [counter[key] += 1]. *)
Definition counter_incr (key : string) (c : gmap string Z) : gmap string Z :=
  <[key := counter_get c key + 1]> c.

(** [sum(counter.values())]. *)
Definition counter_total (c : gmap string Z) : Z :=
  map_fold (fun _ v acc => v + acc) 0 c.

(** [counter.items()]. *)
Definition items (c : gmap string Z) : list (string * Z) := map_to_list c.

Record Stats := mkStats {
  total_requests : Z;
  successful_requests : Z;
  failed_requests : Z;
  status_code_counts : gmap string Z;
  total_time_per_request : list Q
}.

(** The dictionary built under "Initialization" in [main]. *)
Definition init_stats (request_count : Z) : Stats :=
  {| total_requests := request_count;
     successful_requests := 0;
     failed_requests := 0;
     status_code_counts := ∅;
     total_time_per_request := [] |}.

(* ===================================================================== *)
(** ** [fetch_head]                                                       *)
(* ===================================================================== *)

(** An exception raised by [session.head(url)], described by the [except]
    clauses of [fetch_head] that accept it ([isinstance] against the class
    named by the clause).  Nothing is assumed about the class hierarchy. *)
Record exception := mkException {
  isinstance_ClientError : bool;    (* matches [except aiohttp.ClientError] *)
  isinstance_TimeoutError : bool    (* matches [except asyncio.TimeoutError] *)
}.

(** Some classes of the two libraries.  aiohttp declares
    [class ServerTimeoutError(ServerConnectionError, asyncio.TimeoutError)]
    and raises it (or its subclass [ConnectionTimeoutError]) when the
    [connect] bound of [ClientTimeout] elapses; [ServerConnectionError]
    derives from [ClientError]. *)
Definition ClientConnectorError : exception := mkException true false.
Definition AsyncioTimeoutError : exception := mkException false true.
Definition ServerTimeoutError : exception := mkException true true.
Definition CancelledError : exception := mkException false false.

(** What [async with session.head(url) as response] does: it yields a
    response carrying a status code, or it raises. *)
Inductive head_outcome :=
  | Responded (status : Z)
  | Raised (e : exception).

(** How a call of [fetch_head] ends. *)
Inductive py_error :=
  | Propagated (e : exception)      (* an exception no clause caught *)
  | UnboundLocalError.              (* reading [status] before assignment *)

Inductive fetch_result :=
  | Returned
  | Failed (err : py_error).

(** The [try] statement up to (excluding) [finally]: the new statistics,
    the local [status] ([None] while unbound) and the exception still in
    flight, if any. *)
Definition try_except (o : head_outcome) (st : Stats)
  : Stats * option string * option exception :=
  match o with
  | Responded code =>
      (mkStats (total_requests st) (successful_requests st + 1)
               (failed_requests st) (status_code_counts st)
               (total_time_per_request st),
       Some (str code), None)
  | Raised e =>
      if isinstance_ClientError e then
        (mkStats (total_requests st) (successful_requests st)
                 (failed_requests st + 1) (status_code_counts st)
                 (total_time_per_request st),
         Some "NetworkError"%string, None)
      else if isinstance_TimeoutError e then
        (mkStats (total_requests st) (successful_requests st)
                 (failed_requests st + 1) (status_code_counts st)
                 (total_time_per_request st),
         Some "Timeout"%string, None)
      else (st, None, Some e)
  end.

(** The [finally] suite.  Its first statement reads [status]; when that
    local is unbound the read raises before anything is written. *)
Definition finally_suite (status : option string) (start_time end_time : Q)
    (st : Stats) : Stats * option py_error :=
  match status with
  | None => (st, Some UnboundLocalError)
  | Some label =>
      (mkStats (total_requests st) (successful_requests st)
               (failed_requests st)
               (counter_incr label (status_code_counts st))
               (total_time_per_request st ++ [Qminus end_time start_time]),
       None)
  end.

(** The body of [fetch_head] under [async with semaphore]: [start_time] is
    the clock reading before the request, [end_time] the reading the
    [finally] suite takes. *)
Definition fetch_head (o : head_outcome) (start_time end_time : Q)
    (st : Stats) : Stats * fetch_result :=
  let '(st1, status, pending) := try_except o st in
  match finally_suite status start_time end_time st1 with
  | (st2, Some err) => (st2, Failed err)
  | (st2, None) =>
      match pending with
      | Some e => (st2, Failed (Propagated e))
      | None => (st2, Returned)
      end
  end.

(** The outcomes the [try] statement handles: a response, or an exception
    accepted by one of the two [except] clauses. *)
Definition handled (o : head_outcome) : bool :=
  match o with
  | Responded _ => true
  | Raised e => isinstance_ClientError e || isinstance_TimeoutError e
  end.

(** The value of the local [status] when the [finally] suite starts:
    the label of the outcome, [None] while the local is unbound. *)
Definition status_at_finally (o : head_outcome) (st : Stats) : option string :=
  (try_except o st).1.2.

(* ===================================================================== *)
(** ** The run: tasks interleaved under [asyncio.Semaphore]              *)
(* ===================================================================== *)

Record RunConfig := mkConfig {
  target_base_url : string;
  request_count : Z;
  concurrency : Z
}.

(** Where one [fetch_head] task stands. *)
Inductive task_state :=
  | Waiting                         (* not yet inside [async with semaphore] *)
  | Holding (start_time : Q)        (* slot acquired, request in flight *)
  | Finished (r : fetch_result).    (* left [async with semaphore] *)

(** [sem_value] is the semaphore's internal counter of free slots. *)
Record run_state := mkRun {
  sem_value : Z;
  tasks : list task_state;
  stats : Stats
}.

(** [asyncio.Semaphore(value)] raises [ValueError] for a negative value;
    otherwise [main] creates one task per index of [range(request_count)]. *)
Definition main_init (cfg : RunConfig) : option run_state :=
  if concurrency cfg <? 0 then None
  else Some (mkRun (concurrency cfg)
                   (replicate (length (range (request_count cfg))) Waiting)
                   (init_stats (request_count cfg))).

(** Scheduler events: task [i] enters the semaphore at clock reading [t],
    or task [i]'s request ends with outcome [o] at clock reading [t]; the
    task then runs to the end of [fetch_head] and releases its slot. *)
Inductive run_event :=
  | Acquire (i : nat) (t : Q)
  | Complete (i : nat) (o : head_outcome) (t : Q).

Definition exec_event (s : run_state) (ev : run_event) : option run_state :=
  match ev with
  | Acquire i t =>
      match tasks s !! i with
      | Some Waiting =>
          if 0 <? sem_value s
          then Some (mkRun (sem_value s - 1) (<[i := Holding t]> (tasks s)) (stats s))
          else None
      | _ => None
      end
  | Complete i o t =>
      match tasks s !! i with
      | Some (Holding t0) =>
          let '(st, r) := fetch_head o t0 t (stats s) in
          Some (mkRun (sem_value s + 1) (<[i := Finished r]> (tasks s)) st)
      | _ => None
      end
  end.

Fixpoint exec_trace (s : run_state) (evs : list run_event) : option run_state :=
  match evs with
  | [] => Some s
  | ev :: evs' =>
      match exec_event s ev with
      | Some s' => exec_trace s' evs'
      | None => None
      end
  end.

Definition is_holding (t : task_state) : bool :=
  match t with Holding _ => true | _ => false end.

Definition is_returned (t : task_state) : bool :=
  match t with Finished Returned => true | _ => false end.

Definition count_tasks (p : task_state -> bool) (l : list task_state) : Z :=
  Z.of_nat (length (List.filter p l)).

(** Number of tasks inside [async with semaphore]. *)
Definition holders (s : run_state) : Z := count_tasks is_holding (tasks s).

(** Number of tasks whose [fetch_head] returned normally. *)
Definition completed (s : run_state) : Z := count_tasks is_returned (tasks s).

(** [asyncio.gather] returned normally: every task returned. *)
Definition all_returned (s : run_state) : bool :=
  forallb is_returned (tasks s).

(** [main] up to the end of [asyncio.gather]: the state the schedule [evs]
    leads to, [None] when the semaphore cannot be built or an event of the
    schedule cannot happen. *)
Definition run_main (cfg : RunConfig) (evs : list run_event) : option run_state :=
  match main_init cfg with
  | Some s0 => exec_trace s0 evs
  | None => None
  end.

(** The gate: free slots are never negative, and holders plus free slots
    make up the capacity. *)
Definition gate_invariant (cfg : RunConfig) (s : run_state) : Prop :=
  0 <= sem_value s /\ holders s + sem_value s = concurrency cfg.

(** The bookkeeping of the statistics against the tasks. *)
Definition bookkeeping_invariant (cfg : RunConfig) (s : run_state) : Prop :=
  total_requests (stats s) = request_count cfg /\
  length (tasks s) = length (range (request_count cfg)) /\
  successful_requests (stats s) + failed_requests (stats s) = completed s /\
  counter_total (status_code_counts (stats s))
    = successful_requests (stats s) + failed_requests (stats s) /\
  Z.of_nat (length (total_time_per_request (stats s)))
    = successful_requests (stats s) + failed_requests (stats s).

(* ===================================================================== *)
(** ** The dispatch loop of [main]                                        *)
(* ===================================================================== *)

(** What the loop does, in program order: it appends one [fetch_head]
    coroutine for a URL, writes to [sys.stdout], flushes it, or sleeps. *)
Inductive dispatch_event :=
  | Submit (url : string)
  | StdoutWrite (text : string)
  | StdoutFlush
  | Sleep (seconds : Z).

(** [f"{args.target_base_url.rstrip('/')}/evidence/{random_hex}"] with
    [random_hex = f"{b:02X}"]. *)
Definition target_url (base : string) (b : Z) : string :=
  (rstrip "/"%char base ++ "/evidence/" ++ format_02X b)%string.

(** [f"\rProgress: {submitted}/{total} requests processed."] *)
Definition progress_line (submitted total : Z) : string :=
  (String "013"%char "Progress: " ++ str submitted ++ "/" ++ str total
     ++ " requests processed.")%string.

(** The "Simple progress update" at the end of iteration [i]. *)
Definition progress_update (total : Z) (i : Z) : list dispatch_event :=
  if (i + 1) mod 10000 =? 0 then
    [StdoutWrite (progress_line (i + 1) total ++ " Pausing for 1 sec...")%string;
     StdoutFlush; Sleep 1]
  else if ((i + 1) mod 1000 =? 0) || (i + 1 =? total) then
    [StdoutWrite (progress_line (i + 1) total); StdoutFlush]
  else [].

(** What iteration [i] of [for i in range(args.request_count)] does;
    [raw i] is the generator's raw output behind its [randint] call. *)
Definition iteration (cfg : RunConfig) (raw : Z -> Z) (i : Z) : list dispatch_event :=
  let random_hex_value := randint 0 255 (raw i) in
  Submit (target_url (target_base_url cfg) random_hex_value)
    :: progress_update (request_count cfg) i.

(** The loop body, after the events [done] of the iterations before. *)
Definition loop_body (cfg : RunConfig) (raw : Z -> Z)
    (done : list dispatch_event) (i : Z) : list dispatch_event :=
  done ++ iteration cfg raw i.

Definition dispatch (cfg : RunConfig) (raw : Z -> Z) : list dispatch_event :=
  foldl (loop_body cfg raw) [] (range (request_count cfg)).

Definition is_submit (e : dispatch_event) : bool :=
  match e with Submit _ => true | _ => false end.

Definition is_sleep (e : dispatch_event) : bool :=
  match e with Sleep _ => true | _ => false end.

(** Does the update after the [k]-th submission write a line that shows
    [k]/[total]? *)
Definition shows_progress (total k : Z) (evs : list dispatch_event) : bool :=
  existsb (fun e => match e with
                    | StdoutWrite text => String.prefix (progress_line k total) text
                    | _ => false
                    end) evs.

(* ===================================================================== *)
(** ** The report of [main]                                               *)
(* ===================================================================== *)

(** Python's [float] is IEEE 754 binary64. *)
Definition float_prec : Z := 53.
Definition float_emax : Z := 1024.

(** The exceptions the arithmetic of the report can raise. *)
Inductive arith_error :=
  | ZeroDivisionError
  | OverflowError.

(** The conversion of the [int] operand of a division by a [float]: the
    nearest double, ties to even; [None] is the [OverflowError] ("int too
    large to convert to float") for an [int] beyond the range of doubles. *)
Definition float_of_int (n : Z) : option spec_float :=
  match binary_normalize float_prec float_emax n 0 false with
  | S754_infinity _ => None
  | f => Some f
  end.

(** [a / b] on an [int] and a [float]: the [int] is converted first, a
    divisor equal to zero raises, otherwise the quotient is the IEEE one. *)
Definition truediv (a : Z) (b : spec_float) : arith_error + spec_float :=
  match float_of_int a with
  | None => inl OverflowError
  | Some fa =>
      if SFeqb b (S754_zero false) then inl ZeroDivisionError
      else inr (SFdiv float_prec float_emax fa b)
  end.

(** [overall_duration > 0]: false for zeros, negative numbers and NaN. *)
Definition gt_zero (d : spec_float) : bool := SFltb (S754_zero false) d.

(** The value bound to [rps]: the [int] [0] or a [float]. *)
Inductive number :=
  | PyInt (n : Z)
  | PyFloat (f : spec_float).

(** [stats['total_requests'] / overall_duration if overall_duration > 0 else 0] *)
Definition rps (st : Stats) (overall_duration : spec_float)
  : arith_error + number :=
  if gt_zero overall_duration
  then match truediv (total_requests st) overall_duration with
       | inl err => inl err
       | inr q => inr (PyFloat q)
       end
  else inr (PyInt 0).

(** [f"{status}: {count} requests"] *)
Definition distribution_line (entry : string * Z) : string :=
  (entry.1 ++ ": " ++ str entry.2 ++ " requests")%string.

(** The lines printed under "Status Code Distribution". *)
Definition report_entries (st : Stats) : list (string * Z) :=
  sorted (items (status_code_counts st)).

Definition distribution (st : Stats) : list string :=
  map distribution_line (report_entries st).

(* ===================================================================== *)
(** ** Reading a schedule and a report                                    *)
(* ===================================================================== *)

(** The outcomes of the requests that ended, in the order they ended. *)
Definition completions (evs : list run_event) : list head_outcome :=
  flat_map (fun ev => match ev with
                      | Complete _ o _ => [o]
                      | Acquire _ _ => []
                      end) evs.

(** The tasks whose requests ended, in the order they ended. *)
Definition completed_indices (evs : list run_event) : list nat :=
  flat_map (fun ev => match ev with
                      | Complete i _ _ => [i]
                      | Acquire _ _ => []
                      end) evs.

Definition is_response (o : head_outcome) : bool :=
  match o with Responded _ => true | Raised _ => false end.

(** An exception one of the two [except] clauses takes. *)
Definition is_caught (o : head_outcome) : bool :=
  match o with
  | Responded _ => false
  | Raised e => isinstance_ClientError e || isinstance_TimeoutError e
  end.

(** The labels under which a list of outcomes is recorded, in order; an
    outcome that leaves [status] unbound contributes none. *)
Definition labels_of (os : list head_outcome) : list string :=
  flat_map (fun o => match status_at_finally o (init_stats 0) with
                     | Some label => [label]
                     | None => []
                     end) os.

(** The labels the [finally] suites of a schedule were given, in order. *)
Definition recorded_labels (evs : list run_event) : list string :=
  labels_of (completions evs).

(** How often [label] occurs in a list of labels. *)
Definition tally (label : string) (labels : list string) : Z :=
  Z.of_nat (length (List.filter (String.eqb label) labels)).

Definition count_outcomes (p : head_outcome -> bool) (evs : list run_event) : Z :=
  Z.of_nat (length (List.filter p (completions evs))).

Definition is_finished (t : task_state) : bool :=
  match t with Finished _ => true | _ => false end.

(** [gather] has nothing left to wait for. *)
Definition all_finished (s : run_state) : bool := forallb is_finished (tasks s).

(** Every count the map holds is at least one. *)
Definition counts_positive (s : run_state) : Prop :=
  forall key v, status_code_counts (stats s) !! key = Some v -> 1 <= v.

(** The clock reading that comes with a scheduler event. *)
Definition event_time (ev : run_event) : Q :=
  match ev with
  | Acquire _ t => t
  | Complete _ _ t => t
  end.

(** The sum of the counts a report lists. *)
Definition sum_counts (l : list (string * Z)) : Z :=
  foldr (fun entry acc => entry.2 + acc) 0 l.

Definition is_write (e : dispatch_event) : bool :=
  match e with StdoutWrite _ => true | _ => false end.

(** Is [i + 1] a multiple of [m]? *)
Definition at_multiple (m : Z) (i : Z) : bool := (i + 1) mod m =? 0.

(* ===================================================================== *)
(** ** The test server ([simple_webdav_server.py])                        *)
(* ===================================================================== *)

Definition USERNAME : string := "testuser".
Definition PASSWORD : string := "testpassword".
Definition REALM : string := "WebDAV Test Realm".

(** [s.split(sep, 1)] for a one-character [sep], unpacked into two names:
    the parts before and after the first [sep]; [None] when [sep] does not
    occur (the unpacking then raises [ValueError]). *)
Fixpoint split_once (sep : ascii) (s : string) : option (string * string) :=
  match s with
  | EmptyString => None
  | String a s' =>
      if Ascii.eqb a sep then Some (EmptyString, s')
      else match split_once sep s' with
           | Some (l, r) => Some (String a l, r)
           | None => None
           end
  end.

(** [c in s] for a one-character [c]. *)
Fixpoint occurs (c : ascii) (s : string) : bool :=
  match s with
  | EmptyString => false
  | String a s' => Ascii.eqb a c || occurs c s'
  end.

(** [str.lower()] on the letters [A-Z]; a header is read as Latin-1, whose
    other characters [lower()] never turns into ASCII letters. *)
Definition lower_char (c : ascii) : ascii :=
  let n := N_of_ascii c in
  if ((65 <=? n) && (n <=? 90))%N then ascii_of_N (n + 32) else c.

Fixpoint lower (s : string) : string :=
  match s with
  | EmptyString => EmptyString
  | String c s' => String (lower_char c) (lower s')
  end.

(** The [try] suite of [authenticate]: [Some username] where the code
    reaches [return True], [None] where it falls out of the [if]s or an
    exception is swallowed by [except Exception].  [decode] stands for
    [base64.b64decode(...).decode("utf-8")], [None] where either raises. *)
Definition check_credentials (decode : string -> option string) (auth_header : string)
  : option string :=
  match split_once " "%char auth_header with
  | None => None
  | Some (scheme, encoded_credentials) =>
      if String.eqb (lower scheme) "basic" then
        match decode encoded_credentials with
        | None => None
        | Some decoded_credentials =>
            match split_once ":"%char decoded_credentials with
            | None => None
            | Some (input_username, input_password) =>
                if String.eqb input_username USERNAME
                   && String.eqb input_password PASSWORD
                then Some input_username
                else None
            end
        end
      else None
  end.

(** [authenticate]: the returned boolean and the value it leaves in
    [self.username_for_log]. *)
Definition authenticate (decode : string -> option string)
    (auth_header : option string) : bool * string :=
  match auth_header with
  | None => (false, "-"%string)
  | Some h =>
      match check_credentials decode h with
      | Some username => (true, username)
      | None => (false, "invalid_user"%string)
      end
  end.

(** What the handler sends: the status code and the headers it adds itself. *)
Record response := mkResponse {
  resp_status : Z;
  resp_headers : list (string * string)
}.

Definition double_quote : string := String "034"%char EmptyString.

(** [do_HEAD]: the response and the final [self.username_for_log]. *)
Definition do_HEAD (decode : string -> option string)
    (auth_header : option string) (path : string) : response * string :=
  let '(ok, username_for_log) := authenticate decode auth_header in
  if negb ok then
    (mkResponse 401
       [("WWW-Authenticate"%string,
         ("Basic realm=" ++ double_quote ++ REALM ++ double_quote)%string)],
     username_for_log)
  else if String.prefix "/evidence/" path then
    (mkResponse 200 [], username_for_log)
  else
    (mkResponse 404 [], username_for_log).

(* ===================================================================== *)
(** * Properties                                                          *)
(* ===================================================================== *)

(** ** Facts about the builtins *)

Section Builtins.

Lemma digit_value_digit_char (d : Z) :
  0 <= d < 10 -> digit_value (digit_char d) = Some d.
Proof.
  intros Hd.
  assert (d = 0 \/ d = 1 \/ d = 2 \/ d = 3 \/ d = 4 \/ d = 5 \/ d = 6
          \/ d = 7 \/ d = 8 \/ d = 9) as Hcases by lia.
  repeat (destruct Hcases as [-> | Hcases]; [reflexivity |]).
  subst d. reflexivity.
Qed.

(** The rendering loop never produces the empty string. *)
Lemma digits_go_nonempty base fuel n acc :
  exists c s, digits_go base fuel n acc = String c s.
Proof.
  revert n acc. induction fuel as [| fuel IH]; intros n acc; simpl.
  - eauto.
  - destruct (n / base =? 0); eauto.
Qed.

(** With enough fuel, reading the decimal rendering of [n] in front of
    [acc] is reading [acc] from the accumulator [n]. *)
Lemma parse_digits_go fuel : forall n acc,
  0 <= n < 10 ^ (Z.of_nat fuel + 1) ->
  parse_digits (digits_go 10 fuel n acc) 0 = parse_digits acc n.
Proof.
  induction fuel as [| fuel IH]; intros n acc Hn.
  - simpl in *. rewrite digit_value_digit_char by (apply Z.mod_pos_bound; lia).
    rewrite Z.mod_small by lia. f_equal.
  - cbn [digits_go].
    destruct (n / 10 =? 0) eqn:Hq.
    + apply Z.eqb_eq in Hq. simpl.
      rewrite digit_value_digit_char by (apply Z.mod_pos_bound; lia).
      f_equal. pose proof (Z.div_mod n 10). lia.
    + apply Z.eqb_neq in Hq. rewrite IH.
      * simpl. rewrite digit_value_digit_char by (apply Z.mod_pos_bound; lia).
        f_equal. pose proof (Z.div_mod n 10). lia.
      * split; [apply Z.div_pos; lia |].
        apply Z.div_lt_upper_bound; [lia |].
        replace (Z.of_nat (S fuel) + 1) with (Z.succ (Z.of_nat fuel + 1)) in Hn by lia.
        rewrite Z.pow_succ_r in Hn by lia. lia.
Qed.

Lemma digits_fuel_enough (n : Z) :
  0 <= n -> n < 10 ^ (Z.of_nat (digits_fuel n) + 1).
Proof.
  intros Hn. unfold digits_fuel.
  destruct (Z.eq_dec n 0) as [-> | Hne]; [reflexivity |].
  rewrite Z2Nat.id by apply Z.log2_nonneg.
  pose proof (Z.log2_spec n ltac:(lia)) as [_ Hlt].
  eapply Z.lt_le_trans; [exact Hlt |].
  replace (Z.succ (Z.log2 n)) with (Z.log2 n + 1) by lia.
  apply Z.pow_le_mono_l. lia.
Qed.

Lemma parse_render_digits (n : Z) :
  0 <= n -> parse_digits (render_digits 10 n) 0 = Some n.
Proof.
  intros Hn. unfold render_digits.
  rewrite parse_digits_go; [reflexivity |].
  split; [lia | by apply digits_fuel_enough].
Qed.

Lemma parse_digits_no_minus s acc :
  parse_digits (String "-"%char s) acc = None.
Proof. reflexivity. Qed.

(** [str] is faithful: reading the numeral back gives the integer. *)
Lemma parse_int_str (n : Z) : parse_int (str n) = Some n.
Proof.
  unfold str. destruct (n <? 0) eqn:Hneg.
  - apply Z.ltb_lt in Hneg. cbn [parse_int]. rewrite Ascii.eqb_refl.
    pose proof (parse_render_digits (Z.abs n) ltac:(lia)) as Hp.
    destruct (digits_go_nonempty 10 (digits_fuel (Z.abs n)) (Z.abs n) EmptyString)
      as (c & s & Hs).
    unfold render_digits in *. rewrite Hs in *. rewrite Hp. simpl. f_equal. lia.
  - apply Z.ltb_ge in Hneg.
    pose proof (parse_render_digits n Hneg) as Hp.
    destruct (digits_go_nonempty 10 (digits_fuel n) n EmptyString) as (c & s & Hs).
    unfold render_digits in *. rewrite Hs in *. cbn [parse_int].
    destruct (Ascii.eqb c "-"%char) eqn:Hc; [| exact Hp].
    apply Ascii.eqb_eq in Hc. subst c. discriminate Hp.
Qed.

Lemma str_inj (n m : Z) : str n = str m -> n = m.
Proof.
  intros H. pose proof (parse_int_str n) as Hn. rewrite H, parse_int_str in Hn.
  congruence.
Qed.


(** For a byte, [:02X] yields exactly the two hexadecimal digits. *)
Lemma format_02X_byte (b : Z) :
  0 <= b <= 255 ->
  format_02X b = String (digit_char (b / 16)) (String (digit_char (b mod 16)) EmptyString).
Proof.
  intros Hb.
  assert (forallb (fun b => String.eqb (format_02X b)
            (String (digit_char (b / 16)) (String (digit_char (b mod 16)) EmptyString)))
            (seqZ 0 256) = true) as Hall by (vm_compute; reflexivity).
  rewrite forallb_forall in Hall.
  apply String.eqb_eq, Hall, list_elem_of_In, elem_of_seqZ. lia.
Qed.

Lemma format_02X_bytes_NoDup : NoDup (map format_02X (seqZ 0 256)).
Proof. apply (bool_decide_unpack _). vm_compute. reflexivity. Qed.

Lemma string_app_inj (p s1 s2 : string) :
  (p ++ s1)%string = (p ++ s2)%string -> s1 = s2.
Proof. induction p as [| c p IH]; simpl; intros H; [exact H | injection H; auto]. Qed.

Lemma rstrip_split (c : ascii) (s : string) :
  exists k, s = (rstrip c s ++ copies c k)%string.
Proof.
  induction s as [| a s [k IH]]; [exists O; reflexivity |].
  cbn [rstrip]. destruct (rstrip c s) as [| x r] eqn:Hr.
  - change (String.append EmptyString ?x) with x in IH.
    destruct (Ascii.eqb_spec a c) as [-> | Hne].
    + exists (S k). change (String c s = String c (copies c k)). by f_equal.
    + exists k. change (String a s = String a (copies c k)). by f_equal.
  - exists k. change (String a s = String a (String x r ++ copies c k)%string).
    by f_equal.
Qed.

Lemma rstrip_no_trailing (c : ascii) (s : string) :
  ends_with c (rstrip c s) = false.
Proof.
  induction s as [| a s IH]; [reflexivity |].
  cbn [rstrip]. destruct (rstrip c s) as [| x r] eqn:Hr.
  - destruct (Ascii.eqb a c) eqn:Hac; [reflexivity | simpl; exact Hac].
  - exact IH.
Qed.

Lemma prefix_append (s t : string) : String.prefix s (s ++ t) = true.
Proof.
  induction s as [| c s IH]; simpl.
  - by destruct t.
  - destruct (ascii_dec c c); [exact IH | congruence].
Qed.

Lemma prefix_refl (s : string) : String.prefix s s = true.
Proof.
  induction s as [| c s IH]; [done |].
  simpl. destruct (ascii_dec c c); [exact IH | congruence].
Qed.

(** *** The order on strings *)

Lemma ascii_compare_refl (a : ascii) : Ascii.compare a a = Eq.
Proof. unfold Ascii.compare. apply N.compare_refl. Qed.

Lemma ascii_compare_lt_trans (a b c : ascii) :
  Ascii.compare a b = Lt -> Ascii.compare b c = Lt -> Ascii.compare a c = Lt.
Proof. unfold Ascii.compare. rewrite !N.compare_lt_iff. lia. Qed.

Lemma string_compare_refl (s : string) : String.compare s s = Eq.
Proof.
  induction s as [| a s IH]; [reflexivity |].
  simpl. by rewrite ascii_compare_refl.
Qed.

Lemma string_compare_lt_trans (s1 : string) : forall s2 s3,
  String.compare s1 s2 = Lt -> String.compare s2 s3 = Lt ->
  String.compare s1 s3 = Lt.
Proof.
  induction s1 as [| a s1 IH]; intros [| b s2] [| c s3]; simpl; try done.
  destruct (Ascii.compare a b) eqn:Hab; [| | done].
  - apply Ascii.compare_eq_iff in Hab. subst b.
    destruct (Ascii.compare a c); [apply IH | done | done].
  - intros _. destruct (Ascii.compare b c) eqn:Hbc; [| | done].
    + apply Ascii.compare_eq_iff in Hbc. subst c. by rewrite Hab.
    + by rewrite (ascii_compare_lt_trans a b c).
Qed.

Lemma str_lt_irrefl (s : string) : str_lt s s = false.
Proof. unfold str_lt. by rewrite string_compare_refl. Qed.

Lemma str_lt_trans (s1 s2 s3 : string) :
  str_lt s1 s2 = true -> str_lt s2 s3 = true -> str_lt s1 s3 = true.
Proof.
  unfold str_lt. intros H12 H23.
  rewrite (string_compare_lt_trans s1 s2 s3); [done | |].
  - by destruct (String.compare s1 s2).
  - by destruct (String.compare s2 s3).
Qed.

Lemma str_lt_asym (s1 s2 : string) : str_lt s1 s2 = true -> str_lt s2 s1 = false.
Proof.
  unfold str_lt. rewrite (String.compare_antisym s2 s1).
  by destruct (String.compare s1 s2).
Qed.

Lemma str_lt_connex (s1 s2 : string) :
  str_lt s1 s2 = false -> str_lt s2 s1 = false -> s1 = s2.
Proof.
  unfold str_lt. rewrite (String.compare_antisym s2 s1).
  destruct (String.compare s1 s2) eqn:Hc; try done.
  intros _ _. by apply String.compare_eq_iff.
Qed.

Lemma item_lt_asym (x y : string * Z) : item_lt x y = true -> item_lt y x = false.
Proof.
  unfold item_lt. destruct x as [k1 v1], y as [k2 v2]; simpl.
  destruct (String.eqb_spec k1 k2) as [-> | Hne].
  - rewrite str_lt_irrefl, String.eqb_refl. simpl. lia.
  - rewrite (proj2 (String.eqb_neq k2 k1)) by congruence.
    cbn [andb]. rewrite !orb_false_r. apply str_lt_asym.
Qed.

(** *** [sorted] *)

Lemma sorted_insert_Permutation x l : Permutation (sorted_insert x l) (x :: l).
Proof.
  induction l as [| y l IH]; simpl; [done |].
  destruct (item_lt x y); [done |].
  rewrite IH. apply perm_swap.
Qed.

Lemma sorted_Permutation l : Permutation (sorted l) l.
Proof.
  unfold sorted. transitivity (rev l); [| symmetry; apply Permutation_rev].
  induction (rev l) as [| x l' IH]; simpl; [done |].
  by rewrite sorted_insert_Permutation, IH.
Qed.

Lemma sorted_insert_HdRel a x l :
  not_after a x -> HdRel not_after a l -> HdRel not_after a (sorted_insert x l).
Proof.
  intros Hax Hal. destruct l as [| y l]; simpl; [by constructor |].
  destruct (item_lt x y); constructor; [done |]. by inversion Hal.
Qed.

Lemma sorted_insert_Sorted x l :
  Sorted not_after l -> Sorted not_after (sorted_insert x l).
Proof.
  induction 1 as [| y l Hl IH Hhd]; simpl; [by repeat constructor |].
  destruct (item_lt x y) eqn:Hxy.
  - constructor; [by constructor |]. constructor. by apply item_lt_asym.
  - constructor; [done |]. by apply sorted_insert_HdRel.
Qed.

Lemma sorted_Sorted l : Sorted not_after (sorted l).
Proof.
  unfold sorted. induction (rev l) as [| x l' IH]; simpl; [constructor |].
  by apply sorted_insert_Sorted.
Qed.

Lemma label_lt_trans : Transitive label_lt.
Proof. intros x y z. unfold label_lt. apply str_lt_trans. Qed.

Lemma not_after_label_lt x y : x.1 <> y.1 -> not_after x y -> label_lt x y.
Proof.
  unfold not_after, label_lt, item_lt. intros Hne H.
  apply orb_false_elim in H as [H _].
  destruct (str_lt x.1 y.1) eqn:Hxy; [done |].
  destruct Hne. by apply str_lt_connex.
Qed.

Lemma Sorted_distinct_labels l :
  NoDup (map fst l) -> Sorted not_after l -> Sorted label_lt l.
Proof.
  induction l as [| x l IH]; intros Hnd Hs; [constructor |].
  apply NoDup_cons in Hnd as [Hx Hnd]. inversion Hs as [| ? ? Hs' Hhd]; subst.
  constructor; [by apply IH |].
  destruct l as [| y l]; constructor.
  inversion Hhd; subst. apply not_after_label_lt; [| done].
  intros Heq. apply Hx. rewrite Heq. simpl. apply list_elem_of_here.
Qed.

End Builtins.

(** Sample evaluations. *)

Example str_samples :
  str 200 = "200"%string /\ str 404 = "404"%string /\ str 0 = "0"%string
  /\ str (-15) = "-15"%string.
Proof. repeat split. Qed.

Example format_02X_samples :
  format_02X 0 = "00"%string /\ format_02X 10 = "0A"%string
  /\ format_02X 171 = "AB"%string /\ format_02X 255 = "FF"%string.
Proof. repeat split. Qed.

Example rstrip_samples :
  rstrip "/"%char "http://localhost:8000//" = "http://localhost:8000"%string
  /\ rstrip "/"%char "http://host/dav" = "http://host/dav"%string
  /\ rstrip "/"%char "//" = ""%string.
Proof. repeat split. Qed.

Example target_url_sample :
  target_url "http://localhost:8000/" 171
    = "http://localhost:8000/evidence/AB"%string.
Proof. reflexivity. Qed.

(** ** The counter *)

Section CounterFacts.

Implicit Types (c : gmap string Z) (key : string).

Lemma counter_total_empty : counter_total ∅ = 0.
Proof. unfold counter_total. by rewrite map_fold_empty. Qed.

Lemma counter_total_insert key v c :
  counter_total (<[key := v]> c) = counter_total c - counter_get c key + v.
Proof.
  unfold counter_total, counter_get.
  destruct (c !! key) as [x |] eqn:Hkey; simpl.
  - rewrite <- insert_delete_eq.
    rewrite map_fold_insert_L; [| intros; lia | apply lookup_delete_eq].
    rewrite (map_fold_delete_L _ 0 key x c); [lia | intros; lia | done].
  - rewrite map_fold_insert_L; [lia | intros; lia | done].
Qed.

Lemma counter_total_incr key c :
  counter_total (counter_incr key c) = counter_total c + 1.
Proof. unfold counter_incr. rewrite counter_total_insert. lia. Qed.

Lemma counter_get_incr_eq key c :
  counter_get (counter_incr key c) key = counter_get c key + 1.
Proof. unfold counter_incr, counter_get at 1. by rewrite lookup_insert_eq. Qed.

Lemma counter_get_incr_ne key other c :
  other <> key -> counter_get (counter_incr key c) other = counter_get c other.
Proof.
  intros Hne. unfold counter_incr, counter_get at 1.
  by rewrite lookup_insert_ne.
Qed.

End CounterFacts.

(** ** One call of [fetch_head] *)

Section FetchHead.

Variables (start_time end_time : Q) (st : Stats).

(** What a handled outcome leaves behind, for the label it is given. *)
Lemma fetch_head_handled (o : head_outcome) :
  handled o = true ->
  exists label,
    status_at_finally o st = Some label /\
    fetch_head o start_time end_time st =
      (mkStats (total_requests st)
               (successful_requests st + (if o is Responded _ then 1 else 0))
               (failed_requests st + (if o is Responded _ then 0 else 1))
               (counter_incr label (status_code_counts st))
               (total_time_per_request st ++ [Qminus end_time start_time]),
       Returned).
Proof.
  destruct o as [code | [ce te]]; cbn [handled]; intros Hh.
  - exists (str code). split; [reflexivity |].
    unfold fetch_head; cbn. by rewrite Z.add_0_r.
  - cbn in Hh. destruct ce; [| destruct te; [| discriminate]].
    + exists "NetworkError". split; [reflexivity |].
      unfold fetch_head; cbn. by rewrite Z.add_0_r.
    + exists "Timeout". split; [reflexivity |].
      unfold fetch_head; cbn. by rewrite Z.add_0_r.
Qed.

(** An exception that neither clause accepts leaves the statistics alone. *)
Lemma fetch_head_unhandled (o : head_outcome) :
  handled o = false ->
  status_at_finally o st = None /\
  fetch_head o start_time end_time st = (st, Failed UnboundLocalError).
Proof.
  destruct o as [code | [[|] [|]]]; cbn [handled]; try discriminate.
  intros _. split; reflexivity.
Qed.

(** A timeout that is not also a client error gets the label [Timeout]. *)
Lemma plain_timeout_labelled_Timeout (e : exception) :
  isinstance_ClientError e = false ->
  isinstance_TimeoutError e = true ->
  status_at_finally (Raised e) st = Some "Timeout" /\
  failed_requests (fetch_head (Raised e) start_time end_time st).1
    = failed_requests st + 1.
Proof. destruct e as [ce te]; simpl; intros -> ->. split; reflexivity. Qed.

End FetchHead.

(** C2 (timeout classification), evaluated on the exception aiohttp raises
    when the connect bound elapses.  [ServerTimeoutError] is an
    [asyncio.TimeoutError] and also an [aiohttp.ClientError]; the clause
    [except aiohttp.ClientError] comes first and takes it, so the request is
    recorded under the label [NetworkError], the count of [Timeout] stays
    as it was, and [failed_requests] grows by one. *)
Theorem C2_connect_timeout_recorded_as_NetworkError (t0 t1 : Q) (st : Stats) :
  isinstance_TimeoutError ServerTimeoutError = true /\
  status_at_finally (Raised ServerTimeoutError) st = Some "NetworkError" /\
  fetch_head (Raised ServerTimeoutError) t0 t1 st =
    (mkStats (total_requests st) (successful_requests st)
             (failed_requests st + 1)
             (counter_incr "NetworkError" (status_code_counts st))
             (total_time_per_request st ++ [Qminus t1 t0]),
     Returned) /\
  counter_get (counter_incr "NetworkError" (status_code_counts st)) "Timeout"
    = counter_get (status_code_counts st) "Timeout".
Proof.
  split; [reflexivity |]. split; [reflexivity |]. split; [reflexivity |].
  by apply counter_get_incr_ne.
Qed.

(** C3 (success classification).  A received response, whatever its status
    code, is recorded under the label [str(status)] (a decimal numeral that
    reads back as the status code), adds one to [successful_requests] and
    leaves [failed_requests] alone; over all outcomes, [failed_requests]
    grows (by one) only when the request raised an exception that one of
    the two [except] clauses caught, never for a response. *)
Theorem C3_response_counts_as_success
    (code : Z) (o : head_outcome) (t0 t1 : Q) (st : Stats) :
  status_at_finally (Responded code) st = Some (str code) /\
  parse_int (str code) = Some code /\
  fetch_head (Responded code) t0 t1 st =
    (mkStats (total_requests st) (successful_requests st + 1)
             (failed_requests st)
             (counter_incr (str code) (status_code_counts st))
             (total_time_per_request st ++ [Qminus t1 t0]),
     Returned) /\
  failed_requests (fetch_head o t0 t1 st).1 =
    failed_requests st +
    match o with
    | Responded _ => 0
    | Raised e => if isinstance_ClientError e || isinstance_TimeoutError e
                  then 1 else 0
    end.
Proof.
  split; [reflexivity |]. split; [apply parse_int_str |]. split; [reflexivity |].
  destruct o as [c | [[|] [|]]]; cbn; lia.
Qed.

(** C5 (exactly-once side effects).  On each of the three branches that
    complete a request (a response, an exception caught as a network error,
    an exception caught as a timeout) [fetch_head] returns normally, and the
    statistics it leaves differ from the ones it found by one increment of
    exactly one entry of [status_code_counts], whose label is the status
    code string, [NetworkError] or [Timeout], with every other entry
    unchanged, and by one value appended to the latency list, namely the
    end time minus the start time. *)
Theorem C5_side_effects_exactly_once
    (o : head_outcome) (t0 t1 : Q) (st : Stats) :
  handled o = true ->
  exists (label : string) (st' : Stats),
    fetch_head o t0 t1 st = (st', Returned) /\
    status_at_finally o st = Some label /\
    ((exists code, o = Responded code /\ label = str code)
     \/ label = "NetworkError" \/ label = "Timeout") /\
    status_code_counts st' = counter_incr label (status_code_counts st) /\
    counter_get (status_code_counts st') label
      = counter_get (status_code_counts st) label + 1 /\
    (forall other, other <> label ->
       counter_get (status_code_counts st') other
         = counter_get (status_code_counts st) other) /\
    counter_total (status_code_counts st')
      = counter_total (status_code_counts st) + 1 /\
    total_time_per_request st' = total_time_per_request st ++ [Qminus t1 t0].
Proof.
  intros Hh.
  destruct (fetch_head_handled t0 t1 st o Hh) as (label & Hlabel & Hrun).
  eexists label, _. split; [exact Hrun |]. split; [exact Hlabel |].
  cbn [status_code_counts total_time_per_request].
  split; [| split; [reflexivity | split; [apply counter_get_incr_eq |
    split; [intros other Hne; by apply counter_get_incr_ne |
    split; [apply counter_total_incr | reflexivity]]]]].
  destruct o as [code | [[|] [|]]]; cbn in Hlabel; simplify_eq; eauto.
Qed.

Lemma C5_side_effects_exactly_once_witness :
  handled (Raised AsyncioTimeoutError) = true /\
  exists (label : string) (st' : Stats),
    fetch_head (Raised AsyncioTimeoutError) (1 # 2) (7 # 2) (init_stats 3)
      = (st', Returned) /\
    label = "Timeout" /\
    total_time_per_request st' = [Qminus (7 # 2) (1 # 2)].
Proof.
  split; [reflexivity |].
  destruct (C5_side_effects_exactly_once (Raised AsyncioTimeoutError)
              (1 # 2) (7 # 2) (init_stats 3) eq_refl)
    as (label & st' & Hrun & Hlabel & _ & _ & _ & _ & _ & Hlat).
  exists label, st'. split; [exact Hrun |]. split; [| exact Hlat].
  cbn in Hlabel. congruence.
Defined.

(** C10 (the recording step under an unexpected exception).  When the HEAD
    call raises an exception that is neither an [aiohttp.ClientError] nor an
    [asyncio.TimeoutError], the local [status] is still unbound when the
    [finally] suite starts, the suite fails on reading it before it writes
    anything, and the call ends with [UnboundLocalError] and the statistics
    exactly as they were: no counter, no entry of [status_code_counts] and
    no latency is added.  The recording step succeeds exactly for a
    response or an exception of one of the two types. *)
Theorem C10_unexpected_exception_records_nothing
    (e : exception) (o : head_outcome) (t0 t1 : Q) (st : Stats) :
  (isinstance_ClientError e = false -> isinstance_TimeoutError e = false ->
   status_at_finally (Raised e) st = None /\
   finally_suite None t0 t1 st = (st, Some UnboundLocalError) /\
   fetch_head (Raised e) t0 t1 st = (st, Failed UnboundLocalError)) /\
  ((fetch_head o t0 t1 st).2 = Returned <-> handled o = true) /\
  ((fetch_head o t0 t1 st).2 = Failed UnboundLocalError <-> handled o = false).
Proof.
  split; [| split].
  - intros Hce Hte.
    destruct (fetch_head_unhandled t0 t1 st (Raised e)) as [Hs Hf].
    { cbn. by rewrite Hce, Hte. }
    by repeat split.
  - destruct (handled o) eqn:Hh.
    + destruct (fetch_head_handled t0 t1 st o Hh) as (label & _ & ->). done.
    + destruct (fetch_head_unhandled t0 t1 st o Hh) as [_ ->]. done.
  - destruct (handled o) eqn:Hh.
    + destruct (fetch_head_handled t0 t1 st o Hh) as (label & _ & ->). done.
    + destruct (fetch_head_unhandled t0 t1 st o Hh) as [_ ->]. done.
Qed.

Lemma C10_unexpected_exception_records_nothing_witness :
  isinstance_ClientError CancelledError = false /\
  isinstance_TimeoutError CancelledError = false /\
  fetch_head (Raised CancelledError) (1 # 2) (7 # 2) (init_stats 3)
    = (init_stats 3, Failed UnboundLocalError).
Proof.
  split; [reflexivity |]. split; [reflexivity |].
  apply (C10_unexpected_exception_records_nothing CancelledError
           (Responded 200) (1 # 2) (7 # 2) (init_stats 3));
    reflexivity.
Defined.

(** ** The run *)

Section Run.

Variable cfg : RunConfig.

Lemma count_tasks_insert (p : task_state -> bool) (l : list task_state) :
  forall (i : nat) (x y : task_state),
  l !! i = Some y ->
  count_tasks p (<[i := x]> l)
    = count_tasks p l - (if p y then 1 else 0) + (if p x then 1 else 0).
Proof.
  unfold count_tasks.
  induction l as [| a l IH]; intros [| i] x y Hy; try discriminate.
  - injection Hy as ->. simpl. destruct (p x), (p y); simpl; lia.
  - simpl in Hy. specialize (IH i x y Hy). simpl.
    destruct (p a); simpl; lia.
Qed.

Lemma count_tasks_replicate_false (p : task_state -> bool) (t : task_state) (k : nat) :
  p t = false -> count_tasks p (replicate k t) = 0.
Proof.
  intros Hp. unfold count_tasks.
  induction k as [| k IH]; simpl; [done |]. by rewrite Hp.
Qed.

Lemma count_tasks_all (p : task_state -> bool) (l : list task_state) :
  forallb p l = true -> count_tasks p l = Z.of_nat (length l).
Proof.
  unfold count_tasks. induction l as [| a l IH]; simpl; [done |].
  intros [Ha Hl]%andb_prop. rewrite Ha. simpl. specialize (IH Hl). lia.
Qed.

Lemma main_init_gate s0 : main_init cfg = Some s0 -> gate_invariant cfg s0.
Proof.
  unfold main_init. destruct (concurrency cfg <? 0) eqn:Hc; [discriminate |].
  intros [= <-]. apply Z.ltb_ge in Hc. unfold gate_invariant, holders. simpl.
  rewrite count_tasks_replicate_false by done. lia.
Qed.

Lemma main_init_bookkeeping s0 :
  main_init cfg = Some s0 -> bookkeeping_invariant cfg s0.
Proof.
  unfold main_init. destruct (concurrency cfg <? 0); [discriminate |].
  intros [= <-]. unfold bookkeeping_invariant, completed. simpl.
  rewrite count_tasks_replicate_false by done.
  rewrite length_replicate, counter_total_empty. done.
Qed.

Lemma exec_event_gate s ev s' :
  gate_invariant cfg s -> exec_event s ev = Some s' -> gate_invariant cfg s'.
Proof.
  unfold gate_invariant, holders. intros [Hnn Hsum] Hev.
  destruct ev as [i t | i o t]; simpl in Hev.
  - destruct (tasks s !! i) as [[| |] |] eqn:Hi; try discriminate.
    destruct (0 <? sem_value s) eqn:Hfree; [| discriminate].
    apply Z.ltb_lt in Hfree. injection Hev as <-. simpl.
    rewrite (count_tasks_insert _ _ _ _ _ Hi). simpl. lia.
  - destruct (tasks s !! i) as [[| t0 |] |] eqn:Hi; try discriminate.
    destruct (fetch_head o t0 t (stats s)) as [st r].
    injection Hev as <-. simpl.
    rewrite (count_tasks_insert _ _ _ _ _ Hi). simpl. lia.
Qed.

Lemma exec_event_bookkeeping s ev s' :
  bookkeeping_invariant cfg s -> exec_event s ev = Some s' ->
  bookkeeping_invariant cfg s'.
Proof.
  unfold bookkeeping_invariant, completed.
  intros (Htot & Hlen & Hdone & Hsum & Hlat) Hev.
  destruct ev as [i t | i o t]; simpl in Hev.
  - destruct (tasks s !! i) as [[| |] |] eqn:Hi; try discriminate.
    destruct (0 <? sem_value s); [| discriminate].
    injection Hev as <-. simpl.
    rewrite (count_tasks_insert _ _ _ _ _ Hi), length_insert. simpl.
    repeat split; try done; lia.
  - destruct (tasks s !! i) as [[| t0 |] |] eqn:Hi; try discriminate.
    destruct (handled o) eqn:Hh.
    + destruct (fetch_head_handled t0 t (stats s) o Hh) as (label & _ & Hrun).
      rewrite Hrun in Hev. injection Hev as <-. simpl.
      rewrite (count_tasks_insert _ _ _ _ _ Hi), length_insert. simpl.
      rewrite counter_total_incr, length_app, Nat2Z.inj_add. simpl.
      repeat split; try done; destruct o; lia.
    + destruct (fetch_head_unhandled t0 t (stats s) o Hh) as [_ Hrun].
      rewrite Hrun in Hev. injection Hev as <-. simpl.
      rewrite (count_tasks_insert _ _ _ _ _ Hi), length_insert. simpl.
      repeat split; try done; lia.
Qed.

Lemma exec_trace_invariant (P : run_state -> Prop) :
  (forall s ev s', P s -> exec_event s ev = Some s' -> P s') ->
  forall evs s s', P s -> exec_trace s evs = Some s' -> P s'.
Proof.
  intros Hstep. induction evs as [| ev evs IH]; intros s s' Hs Hrun; simpl in Hrun.
  - by injection Hrun as <-.
  - destruct (exec_event s ev) as [s1 |] eqn:Hev; [| discriminate].
    eapply IH; [| exact Hrun]. eapply Hstep; eauto.
Qed.

Lemma run_main_gate evs s : run_main cfg evs = Some s -> gate_invariant cfg s.
Proof.
  unfold run_main. destruct (main_init cfg) as [s0 |] eqn:H0; [| discriminate].
  apply (exec_trace_invariant (gate_invariant cfg)).
  - apply exec_event_gate.
  - by apply main_init_gate.
Qed.

Lemma run_main_bookkeeping evs s :
  run_main cfg evs = Some s -> bookkeeping_invariant cfg s.
Proof.
  unfold run_main. destruct (main_init cfg) as [s0 |] eqn:H0; [| discriminate].
  apply (exec_trace_invariant (bookkeeping_invariant cfg)).
  - apply exec_event_bookkeeping.
  - by apply main_init_bookkeeping.
Qed.

Lemma holders_nonneg s : 0 <= holders s.
Proof. unfold holders, count_tasks. lia. Qed.

End Run.

(** C1 (conservation of bookkeeping).  Take a non-negative [request_count].
    In every state a run can be observed in between the updates of
    completed requests, the values of [status_code_counts] sum to
    [successful_requests + failed_requests], the latency list has that
    many entries, and that number is the number of requests that have
    completed; at the end of a run in which every dispatched request
    completed it equals [total_requests]. *)
Theorem C1_conservation (cfg : RunConfig) (evs : list run_event) (s : run_state) :
  0 <= request_count cfg ->
  run_main cfg evs = Some s ->
  counter_total (status_code_counts (stats s))
    = successful_requests (stats s) + failed_requests (stats s) /\
  Z.of_nat (length (total_time_per_request (stats s)))
    = successful_requests (stats s) + failed_requests (stats s) /\
  successful_requests (stats s) + failed_requests (stats s) = completed s /\
  (all_returned s = true ->
   successful_requests (stats s) + failed_requests (stats s)
     = total_requests (stats s)).
Proof.
  intros Hcount Hrun.
  destruct (run_main_bookkeeping cfg evs s Hrun)
    as (Htot & Hlen & Hdone & Hsum & Hlat).
  repeat split; try done.
  intros Hall. rewrite Hdone, Htot. unfold completed.
  rewrite count_tasks_all by exact Hall.
  rewrite Hlen. unfold range. rewrite length_seqZ. lia.
Qed.

Lemma C1_conservation_witness :
  exists s : run_state,
    0 <= 2 /\
    run_main (mkConfig "http://localhost:8000/" 2 1)
      [Acquire 0 0; Complete 0 (Responded 200) 1;
       Acquire 1 1; Complete 1 (Raised ClientConnectorError) (5 # 2)] = Some s /\
    all_returned s = true /\
    successful_requests (stats s) + failed_requests (stats s) = 2.
Proof.
  eexists. split; [lia |]. split; [vm_compute; reflexivity |].
  split; [reflexivity |].
  refine (proj2 (proj2 (proj2 (C1_conservation
    (mkConfig "http://localhost:8000/" 2 1)
    [Acquire 0 0; Complete 0 (Responded 200) 1;
     Acquire 1 1; Complete 1 (Raised ClientConnectorError) (5 # 2)]
    _ _ _))) _).
  - simpl. lia.
  - vm_compute. reflexivity.
  - reflexivity.
Defined.

(** The end-of-run equation of C1 leans on [request_count] being
    non-negative: for a negative one nothing is dispatched, the run ends
    at once, and [total_requests] still holds the negative number. *)
Remark conservation_negative_request_count :
  exists s : run_state,
    run_main (mkConfig "http://localhost:8000/" (-1) 1) [] = Some s /\
    all_returned s = true /\
    successful_requests (stats s) + failed_requests (stats s) = 0 /\
    total_requests (stats s) = -1.
Proof. eexists. split; [reflexivity |]. repeat split. Qed.

(** C4 (concurrency bound).  In every state reachable by interleaving the
    tasks of a run, the number of tasks that have entered
    [async with semaphore] and not yet left it is at most [concurrency];
    together with the free slots it makes up exactly [concurrency], and
    while [concurrency] tasks are inside no further task can enter. *)
Theorem C4_concurrency_bound (cfg : RunConfig) (evs : list run_event) (s : run_state) :
  run_main cfg evs = Some s ->
  0 <= holders s <= concurrency cfg /\
  holders s + sem_value s = concurrency cfg /\
  (holders s = concurrency cfg ->
   forall i t, exec_event s (Acquire i t) = None).
Proof.
  intros Hrun. destruct (run_main_gate cfg evs s Hrun) as [Hfree Hsum].
  pose proof (holders_nonneg s).
  split; [lia |]. split; [exact Hsum |].
  intros Hfull i t. cbn [exec_event].
  destruct (tasks s !! i) as [[| |] |]; try reflexivity.
  destruct (0 <? sem_value s) eqn:Hpos; [| reflexivity].
  apply Z.ltb_lt in Hpos. lia.
Qed.

Lemma C4_concurrency_bound_witness :
  exists s : run_state,
    run_main (mkConfig "http://localhost:8000/" 3 2)
      [Acquire 0 0; Acquire 2 (1 # 10)] = Some s /\
    holders s = 2 /\ sem_value s = 0 /\
    exec_event s (Acquire 1 (2 # 10)) = None /\
    0 <= holders s <= 2.
Proof.
  eexists. split; [vm_compute; reflexivity |].
  split; [reflexivity |]. split; [reflexivity |]. split; [reflexivity |].
  refine (proj1 (C4_concurrency_bound (mkConfig "http://localhost:8000/" 3 2)
            [Acquire 0 0; Acquire 2 (1 # 10)] _ _)).
  vm_compute. reflexivity.
Defined.

(** ** The dispatch loop *)

Section Dispatch.

Variables (cfg : RunConfig) (raw : Z -> Z).

Lemma foldl_loop_body (l : list Z) : forall done,
  foldl (loop_body cfg raw) done l = done ++ flat_map (iteration cfg raw) l.
Proof.
  induction l as [| i l IH]; intros done; simpl.
  - by rewrite app_nil_r.
  - rewrite IH. unfold loop_body. by rewrite <- app_assoc.
Qed.

(** The loop's events are those of its iterations, in order. *)
Lemma dispatch_iterations :
  dispatch cfg raw = flat_map (iteration cfg raw) (range (request_count cfg)).
Proof. unfold dispatch. by rewrite foldl_loop_body. Qed.

Lemma progress_update_no_submit (total i : Z) :
  List.filter is_submit (progress_update total i) = [].
Proof.
  unfold progress_update.
  destruct ((i + 1) mod 10000 =? 0); [reflexivity |].
  destruct (((i + 1) mod 1000 =? 0) || (i + 1 =? total)); reflexivity.
Qed.

Lemma submits_of_iterations (l : list Z) :
  List.filter is_submit (flat_map (iteration cfg raw) l)
    = map (fun i => Submit (target_url (target_base_url cfg)
                                       (randint 0 255 (raw i)))) l.
Proof.
  induction l as [| i l IH]; [reflexivity |].
  cbn [flat_map map]. rewrite List.filter_app, IH.
  unfold iteration. cbn [List.filter is_submit].
  by rewrite progress_update_no_submit.
Qed.

(** One coroutine is created per task of the run. *)
Lemma dispatch_submits_length :
  length (List.filter is_submit (dispatch cfg raw))
    = length (range (request_count cfg)).
Proof.
  rewrite dispatch_iterations, submits_of_iterations. apply length_map.
Qed.

End Dispatch.

Lemma randint_range (a b r : Z) : a <= b -> a <= randint a b r <= b.
Proof.
  intros Hab. unfold randint.
  pose proof (Z.mod_pos_bound r (b - a + 1) ltac:(lia)). lia.
Qed.

Lemma target_urls_NoDup (base : string) :
  NoDup (map (target_url base) (range 256)).
Proof.
  unfold target_url, range.
  rewrite <- (map_map format_02X
    (fun h => (rstrip "/"%char base ++ "/evidence/" ++ h)%string)).
  assert (Inj (=) (=) (fun h => (rstrip "/"%char base ++ "/evidence/" ++ h)%string))
    as Hinj by (intros h1 h2 H; by do 2 apply string_app_inj in H).
  apply (NoDup_fmap_2 _ _ format_02X_bytes_NoDup).
Qed.

Lemma multiple_of_10000_1000 (k : Z) : k mod 10000 = 0 -> k mod 1000 = 0.
Proof.
  intros H. apply Z.mod_divide in H; [| lia]. destruct H as [q ->].
  replace (q * 10000) with (q * 10 * 1000) by lia. by apply Z.mod_mul.
Qed.

Lemma shows_progress_update (total i : Z) :
  shows_progress total (i + 1) (progress_update total i) = true
  <-> (i + 1) mod 1000 = 0 \/ i + 1 = total.
Proof.
  unfold progress_update.
  destruct ((i + 1) mod 10000 =? 0) eqn:H10k.
  - apply Z.eqb_eq in H10k. cbn [shows_progress existsb].
    rewrite prefix_append. cbn [orb].
    split; [| done]. intros _. left. by apply multiple_of_10000_1000.
  - destruct (((i + 1) mod 1000 =? 0) || (i + 1 =? total)) eqn:Hor.
    + cbn [shows_progress existsb]. rewrite prefix_refl. cbn [orb].
      split; [intros _ | done].
      apply orb_true_iff in Hor as [H | H]; apply Z.eqb_eq in H; auto.
    + cbn [shows_progress existsb].
      apply orb_false_iff in Hor as [H1 H2].
      apply Z.eqb_neq in H1, H2. split; [done | tauto].
Qed.

Lemma sleeps_of_progress_update (total i : Z) :
  (existsb is_sleep (progress_update total i) = true <-> (i + 1) mod 10000 = 0)
  /\ List.filter is_sleep (progress_update total i)
       = if (i + 1) mod 10000 =? 0 then [Sleep 1] else [].
Proof.
  unfold progress_update.
  destruct ((i + 1) mod 10000 =? 0) eqn:H10k.
  - apply Z.eqb_eq in H10k. by split.
  - apply Z.eqb_neq in H10k.
    destruct (((i + 1) mod 1000 =? 0) || (i + 1 =? total)); by split.
Qed.


(** C6 (URL construction).  In iteration [i] the generated value [b] lies
    in [0, 255]; the URL submitted is the base URL without its trailing
    slashes, then [/evidence/], then [b] as exactly two upper-case
    hexadecimal digits; the URLs of the loop are built this way, one per
    index; and a base URL has exactly 256 possible URLs: the URLs that some
    output of the generator leads to are the 256 pairwise distinct URLs of
    the values 0 to 255, each of which is attained. *)
Theorem C6_url_construction (cfg : RunConfig) (raw : Z -> Z) (i : Z) :
  let base := target_base_url cfg in
  let b := randint 0 255 (raw i) in
  0 <= b <= 255 /\
  target_url base b
    = (rstrip "/"%char base ++ "/evidence/"
         ++ String (digit_char (b / 16))
              (String (digit_char (b mod 16)) EmptyString))%string /\
  (0 <= b / 16 < 16 /\ 0 <= b mod 16 < 16) /\
  (exists k, base = (rstrip "/"%char base ++ copies "/"%char k)%string) /\
  ends_with "/"%char (rstrip "/"%char base) = false /\
  List.filter is_submit (dispatch cfg raw)
    = map (fun j => Submit (target_url base (randint 0 255 (raw j))))
          (range (request_count cfg)) /\
  NoDup (map (target_url base) (range 256)) /\
  length (map (target_url base) (range 256)) = 256%nat /\
  In (target_url base b) (map (target_url base) (range 256)) /\
  (forall url : string,
     In url (map (target_url base) (range 256))
     <-> exists r : Z, url = target_url base (randint 0 255 r)).
Proof.
  intros base b.
  assert (0 <= b <= 255) as Hb by (apply randint_range; lia).
  split; [exact Hb |].
  split; [unfold target_url; by rewrite format_02X_byte |].
  split.
  { split; [split; [apply Z.div_pos; lia | apply Z.div_lt_upper_bound; lia] |].
    apply Z.mod_pos_bound. lia. }
  split; [apply rstrip_split |].
  split; [apply rstrip_no_trailing |].
  split; [rewrite dispatch_iterations; apply submits_of_iterations |].
  split; [apply target_urls_NoDup |].
  split; [reflexivity |].
  split; [apply in_map, list_elem_of_In, elem_of_seqZ; lia |].
  intros url. split.
  - intros (v & <- & Hv)%in_map_iff.
    apply list_elem_of_In, elem_of_seqZ in Hv.
    exists v. unfold randint. by rewrite Z.add_0_l, Z.mod_small by lia.
  - intros [r ->]. apply in_map, list_elem_of_In, elem_of_seqZ.
    pose proof (randint_range 0 255 r ltac:(lia)). lia.
Qed.

(** C7 as it is written, at [request_count = 5]: after the fifth (last)
    submission a progress line showing 5/5 is written, although 5 is not a
    multiple of 1000. *)
Lemma C7_progress_line_after_last_submission :
  dispatch (mkConfig "http://localhost:8000" 5 2) (fun i => 37 * i + 9)
    = [Submit "http://localhost:8000/evidence/09";
       Submit "http://localhost:8000/evidence/2E";
       Submit "http://localhost:8000/evidence/53";
       Submit "http://localhost:8000/evidence/78";
       Submit "http://localhost:8000/evidence/9D";
       StdoutWrite (progress_line 5 5); StdoutFlush] /\
  progress_update 5 4 = [StdoutWrite (progress_line 5 5); StdoutFlush] /\
  shows_progress 5 (4 + 1) (progress_update 5 4) = true /\
  (4 + 1) mod 1000 <> 0.
Proof.
  split; [vm_compute; reflexivity |]. split; [reflexivity |].
  split; [reflexivity | discriminate].
Qed.

(** C7 (progress and pacing schedule), amended.  The loop's events are, per
    index in order, the submission followed by the progress update.  After
    the [k]-th submission a line showing [k]/[total] is written exactly
    when [k] is a multiple of 1000 or [k] is the total number of requests;
    the loop sleeps exactly when [k] is a multiple of 10000, for one
    second, and nowhere else. *)
Theorem C7_progress_and_pacing (cfg : RunConfig) (raw : Z -> Z) (i : Z) :
  let total := request_count cfg in
  let k := i + 1 in
  dispatch cfg raw = flat_map (iteration cfg raw) (range total) /\
  iteration cfg raw i
    = Submit (target_url (target_base_url cfg) (randint 0 255 (raw i)))
        :: progress_update total i /\
  (shows_progress total k (progress_update total i) = true
   <-> k mod 1000 = 0 \/ k = total) /\
  (existsb is_sleep (progress_update total i) = true <-> k mod 10000 = 0) /\
  List.filter is_sleep (iteration cfg raw i)
    = (if k mod 10000 =? 0 then [Sleep 1] else []).
Proof.
  intros total k.
  split; [apply dispatch_iterations |]. split; [reflexivity |].
  split; [apply shows_progress_update |].
  destruct (sleeps_of_progress_update total i) as [Hiff Hsleeps].
  split; [exact Hiff | exact Hsleeps].
Qed.

Lemma C7_progress_and_pacing_witness :
  shows_progress 25000 (9999 + 1) (progress_update 25000 9999) = true /\
  existsb is_sleep (progress_update 25000 9999) = true /\
  shows_progress 25000 (24999 + 1) (progress_update 25000 24999) = true /\
  existsb is_sleep (progress_update 25000 24999) = false.
Proof.
  pose proof (C7_progress_and_pacing
                (mkConfig "http://localhost:8000" 25000 100) (fun _ => 0) 9999)
    as (_ & _ & Hline & Hsleep & _).
  pose proof (C7_progress_and_pacing
                (mkConfig "http://localhost:8000" 25000 100) (fun _ => 0) 24999)
    as (_ & _ & Hlast & _ & _).
  split; [apply Hline; left; reflexivity |].
  split; [apply Hsleep; reflexivity |].
  split; [apply Hlast; right; reflexivity | reflexivity].
Defined.

(** ** The report *)

(** *** Rounding never yields a NaN *)

Lemma iter_pos_invariant {A : Type} (f : A -> A) (P : A -> Prop) :
  (forall x, P x -> P (f x)) -> forall n x, P x -> P (iter_pos f n x).
Proof.
  intros Hf. induction n as [n IH | n IH |]; intros x Hx; cbn [iter_pos]; auto.
Qed.

Lemma shr_1_nonneg (mrs : shr_record) : 0 <= shr_m mrs -> 0 <= shr_m (shr_1 mrs).
Proof. destruct mrs as [[| [p | p |] | p] r s]; cbn; lia. Qed.

Lemma shr_nonneg (mrs : shr_record) (e n : Z) :
  0 <= shr_m mrs -> 0 <= shr_m (shr mrs e n).1.
Proof.
  intros Hm. destruct n as [| p | p]; cbn [shr fst]; [done | | done].
  by apply (iter_pos_invariant shr_1 (fun r => 0 <= shr_m r) shr_1_nonneg).
Qed.

Lemma shr_fexp_nonneg (m e : Z) (l : location) :
  0 <= m -> 0 <= shr_m (shr_fexp float_prec float_emax m e l).1.
Proof.
  intros Hm. unfold shr_fexp. apply shr_nonneg.
  by destruct l as [| []].
Qed.

Lemma round_nearest_even_nonneg (m : Z) (l : location) :
  0 <= m -> 0 <= round_nearest_even m l.
Proof.
  intros Hm. destruct l as [| []]; cbn [round_nearest_even]; try lia.
  destruct (Z.even m); lia.
Qed.

Lemma binary_round_aux_not_nan (sx : bool) (mx ex : Z) (lx : location) :
  0 <= mx -> binary_round_aux float_prec float_emax sx mx ex lx <> S754_nan.
Proof.
  intros Hm. unfold binary_round_aux.
  pose proof (shr_fexp_nonneg mx ex lx Hm) as H1.
  destruct (shr_fexp float_prec float_emax mx ex lx) as [mrs1 e1]. cbn [fst] in H1.
  pose proof (shr_fexp_nonneg
                (round_nearest_even (shr_m mrs1) (loc_of_shr_record mrs1)) e1
                loc_Exact (round_nearest_even_nonneg _ _ H1)) as H2.
  destruct (shr_fexp float_prec float_emax _ e1 loc_Exact) as [mrs2 e2].
  cbn [fst] in H2.
  destruct (shr_m mrs2) as [| m | m]; [done | | lia].
  by destruct (e2 <=? float_emax - float_prec).
Qed.

(** A converted [int] is a zero or a finite double. *)
Lemma float_of_int_finite (n : Z) (f : spec_float) :
  float_of_int n = Some f ->
  (exists s, f = S754_zero s) \/ (exists s m e, f = S754_finite s m e).
Proof.
  unfold float_of_int.
  assert (binary_normalize float_prec float_emax n 0 false <> S754_nan) as Hnan.
  { destruct n as [| m | m]; cbn [binary_normalize]; [done | |];
      unfold binary_round;
      destruct (shl_align m 0 _) as [mz ez];
      by apply binary_round_aux_not_nan. }
  destruct (binary_normalize float_prec float_emax n 0 false) as [s | s | | s m e];
    intros [= <-]; eauto.
  done.
Qed.

Lemma gt_zero_cases (d : spec_float) :
  gt_zero d = true <->
  d = S754_infinity false \/ exists m e, d = S754_finite false m e.
Proof.
  unfold gt_zero, SFltb. destruct d as [s | [|] | | [|] m e]; cbn; split;
    try done; try (intros [H | (m' & e' & H)]; discriminate); eauto.
Qed.

Lemma div_core_nonneg (mx my : positive) (ex ey : Z) :
  0 <= (SFdiv_core_binary float_prec float_emax (Z.pos mx) ex (Z.pos my) ey).1.1.
Proof.
  unfold SFdiv_core_binary.
  set (s := ex - ey - _).
  set (m' := match s with Z.pos _ => Z.shiftl (Z.pos mx) s | 0 => Z.pos mx
                        | Z.neg _ => 0 end).
  assert (0 <= m') as Hm'.
  { subst m'. destruct s; [lia | | lia]. apply Z.shiftl_nonneg. lia. }
  pose proof (Z_div_mod m' (Z.pos my) ltac:(lia)) as Hdm.
  destruct (Z.div_eucl m' (Z.pos my)) as [q r]. cbn [fst]. nia.
Qed.

(** A quotient by a positive double is never a NaN. *)
Lemma SFdiv_not_nan (fa d : spec_float) :
  ((exists s, fa = S754_zero s) \/ (exists s m e, fa = S754_finite s m e)) ->
  gt_zero d = true ->
  SFdiv float_prec float_emax fa d <> S754_nan.
Proof.
  intros Hfa Hd. apply gt_zero_cases in Hd as [-> | (my & ey & ->)];
    destruct Hfa as [[s ->] | (s & mx & ex & ->)]; cbn [SFdiv]; try done.
  pose proof (div_core_nonneg mx my ex ey) as Hq.
  destruct (SFdiv_core_binary float_prec float_emax (Z.pos mx) ex (Z.pos my) ey)
    as [[mz ez] lz].
  by apply binary_round_aux_not_nan.
Qed.

(** C8 as it is written, on doubles.  A run of ten requests measured at
    the smallest positive double reports an infinite value, and a
    [request_count] below the range of doubles (for which nothing is
    dispatched, so the report is reached), with a run measured at one
    second, makes the division raise [OverflowError]. *)
Lemma C8_rps_infinite_or_raises :
  gt_zero (S754_finite false 1 (-1074)) = true /\
  rps (init_stats 10) (S754_finite false 1 (-1074))
    = inr (PyFloat (S754_infinity false)) /\
  range (- 10 ^ 400) = [] /\
  valid_binary float_prec float_emax (S754_finite false 1 (-1074)) = true /\
  gt_zero (S754_finite false 4503599627370496 (-52)) = true /\
  rps (init_stats (- 10 ^ 400)) (S754_finite false 4503599627370496 (-52))
    = inl OverflowError.
Proof. repeat split; vm_compute; reflexivity. Qed.

(** C8 (RPS guard), amended.  On doubles: for a strictly positive duration
    the reported value is [total_requests], converted to a double, divided
    by the duration, whenever that conversion succeeds; for a duration that
    is not strictly positive (zero, negative) it is the integer [0].  The
    guard keeps every zero divisor away from the division, so the
    expression never raises [ZeroDivisionError] and its value is never a
    NaN; it fails only with the [OverflowError] of converting a
    [total_requests] beyond the range of doubles, and its value is
    infinite only as the overflow of a quotient of two finite doubles. *)
Theorem C8_rps_guard (st : Stats) (d : spec_float) :
  (gt_zero d = true ->
   forall fa, float_of_int (total_requests st) = Some fa ->
   rps st d = inr (PyFloat (SFdiv float_prec float_emax fa d))) /\
  (gt_zero d = false -> rps st d = inr (PyInt 0)) /\
  rps st d <> inl ZeroDivisionError /\
  rps st d <> inr (PyFloat S754_nan) /\
  (rps st d = inl OverflowError
   <-> gt_zero d = true /\ float_of_int (total_requests st) = None) /\
  (forall s, rps st d = inr (PyFloat (S754_infinity s)) ->
   exists fa sa ma ea md ed,
     float_of_int (total_requests st) = Some fa /\
     fa = S754_finite sa ma ea /\ d = S754_finite false md ed).
Proof.
  unfold rps, truediv.
  destruct (gt_zero d) eqn:Hd.
  - pose proof (proj1 (gt_zero_cases d) Hd) as Hcases.
    assert (SFeqb d (S754_zero false) = false) as Hnz
      by (destruct Hcases as [-> | (m & e & ->)]; reflexivity).
    rewrite Hnz.
    destruct (float_of_int (total_requests st)) as [fa |] eqn:Hfa.
    + pose proof (float_of_int_finite _ _ Hfa) as Hfin.
      pose proof (SFdiv_not_nan fa d Hfin Hd) as Hnan.
      split; [by intros _ fa' [= <-] |]. split; [done |]. split; [done |].
      split; [congruence |]. split; [split; [done | by intros [_ ?]] |].
      intros s [= Hinf].
      destruct Hcases as [-> | (md & ed & ->)];
        destruct Hfin as [[sa ->] | (sa & ma & ea & ->)];
        try discriminate Hinf.
      by exists (S754_finite sa ma ea), sa, ma, ea, md, ed.
    + split; [by intros _ fa' [=] |]. split; [done |]. split; [done |].
      split; [done |]. split; [done |]. done.
  - split; [done |]. split; [done |]. split; [done |]. split; [done |].
    split; [split; [done | by intros [? _]] | done].
Qed.

Lemma C8_rps_guard_witness :
  gt_zero (S754_finite false 5629499534213120 (-51)) = true /\
  float_of_int 10 = Some (S754_finite false 5629499534213120 (-49)) /\
  rps (init_stats 10) (S754_finite false 5629499534213120 (-51))
    = inr (PyFloat (S754_finite false 4503599627370496 (-50))) /\
  gt_zero (S754_zero false) = false /\
  rps (init_stats 10) (S754_zero false) = inr (PyInt 0).
Proof.
  split; [reflexivity |]. split; [vm_compute; reflexivity |].
  split; [| split; [reflexivity |]].
  - etransitivity.
    + apply (proj1 (C8_rps_guard (init_stats 10)
                      (S754_finite false 5629499534213120 (-51)))
               eq_refl (S754_finite false 5629499534213120 (-49))).
      vm_compute. reflexivity.
    + vm_compute. reflexivity.
  - apply (proj1 (proj2 (C8_rps_guard (init_stats 10) (S754_zero false)))).
    reflexivity.
Defined.

Lemma report_entries_Permutation (st : Stats) :
  Permutation (report_entries st) (items (status_code_counts st)).
Proof. apply sorted_Permutation. Qed.

(** *** A printed line determines its label *)

Lemma string_app_eq_app (l1 : string) : forall l2 s1 s2 : string,
  (l1 ++ s1)%string = (l2 ++ s2)%string ->
  (exists u, l1 = (l2 ++ u)%string /\ s2 = (u ++ s1)%string)
  \/ (exists u, l2 = (l1 ++ u)%string /\ s1 = (u ++ s2)%string).
Proof.
  induction l1 as [| c l1 IH]; intros l2 s1 s2 H.
  - right. by exists l2.
  - destruct l2 as [| c2 l2].
    + left. by exists (String c l1).
    + injection H as -> H.
      destruct (IH l2 s1 s2 H) as [(u & -> & ->) | (u & -> & ->)];
        [left | right]; by exists u.
Qed.

Lemma occurs_app (c : ascii) (s t : string) :
  occurs c (s ++ t) = occurs c s || occurs c t.
Proof.
  induction s as [| a s IH]; [reflexivity |].
  change (occurs c (String a (s ++ t)%string)
          = occurs c (String a s) || occurs c t).
  cbn [occurs]. by rewrite IH, orb_assoc.
Qed.

Lemma digit_char_not_colon (n : Z) :
  Ascii.eqb (digit_char (n mod 10)) ":"%char = false.
Proof.
  pose proof (Z.mod_pos_bound n 10 ltac:(lia)) as Hd.
  assert (n mod 10 = 0 \/ n mod 10 = 1 \/ n mod 10 = 2 \/ n mod 10 = 3
          \/ n mod 10 = 4 \/ n mod 10 = 5 \/ n mod 10 = 6 \/ n mod 10 = 7
          \/ n mod 10 = 8 \/ n mod 10 = 9) as Hcases by lia.
  repeat (destruct Hcases as [-> | Hcases]; [reflexivity |]).
  by rewrite Hcases.
Qed.

Lemma digits_go_no_colon (fuel : nat) : forall (n : Z) (acc : string),
  occurs ":"%char (digits_go 10 fuel n acc) = occurs ":"%char acc.
Proof.
  induction fuel as [| fuel IH]; intros n acc; cbn [digits_go].
  - cbn [occurs]. by rewrite digit_char_not_colon.
  - destruct (n / 10 =? 0); [| rewrite IH]; cbn [occurs];
      by rewrite digit_char_not_colon.
Qed.

Lemma str_no_colon (n : Z) : occurs ":"%char (str n) = false.
Proof.
  unfold str, render_digits. destruct (n <? 0); cbn [occurs];
    by rewrite digits_go_no_colon.
Qed.

(** Two entries that print as the same line have the same label. *)
Lemma distribution_line_label (e1 e2 : string * Z) :
  distribution_line e1 = distribution_line e2 -> e1.1 = e2.1.
Proof.
  assert (forall (l1 l2 : string) (c1 c2 : Z) (u : string),
            l1 = (l2 ++ u)%string ->
            (": " ++ str c2 ++ " requests")%string
              = (u ++ ": " ++ str c1 ++ " requests")%string ->
            l1 = l2) as Hside.
  { intros l1 l2 c1 c2 u -> Hu.
    destruct u as [| a [| b u]].
    - clear. induction l2 as [| c l2 IH]; [done |].
      change (String c (l2 ++ "")%string = String c l2). by rewrite IH.
    - by injection Hu as _ Hu.
    - injection Hu as _ _ Hu. exfalso.
      apply (f_equal (occurs ":"%char)) in Hu.
      rewrite !occurs_app, !str_no_colon in Hu. cbn in Hu.
      by destruct (occurs ":"%char u). }
  unfold distribution_line. destruct e1 as [l1 c1], e2 as [l2 c2]. cbn [fst snd].
  intros H. apply string_app_eq_app in H as [(u & Hl & Hu) | (u & Hl & Hu)].
  - by apply (Hside l1 l2 c1 c2 u).
  - symmetry. by apply (Hside l2 l1 c2 c1 u).
Qed.

Lemma distribution_lines_NoDup (l : list (string * Z)) :
  NoDup (map fst l) -> NoDup (map distribution_line l).
Proof.
  induction l as [| e l IH]; cbn [map]; [constructor |].
  intros [Hnotin Hnd]%NoDup_cons. apply NoDup_cons. split; [| by apply IH].
  intros (e' & Heq & Hin)%list_elem_of_In%in_map_iff.
  apply Hnotin, list_elem_of_In, in_map_iff.
  exists e'. split; [| done]. by apply distribution_line_label.
Qed.

(** A report with four labels, entered in another order. *)
Example distribution_example :
  distribution
    (mkStats 13 10 3
       (<["NetworkError" := 1]> (<["Timeout" := 2]> (<["200" := 7]>
          (<["404" := 3]> ∅))))
       [])
  = ["200: 7 requests"; "404: 3 requests"; "NetworkError: 1 requests";
     "Timeout: 2 requests"].
Proof. vm_compute. reflexivity. Qed.

(** C9 (sorted report).  The lines of the status distribution are the
    entries of [status_code_counts], every entry once, in strictly
    ascending lexicographic order of their labels: line by line the output
    is [label: count requests] for the sorted entries, and no two lines
    are the same. *)
Theorem C9_sorted_report (st : Stats) :
  distribution st
    = map (fun entry => (entry.1 ++ ": " ++ str entry.2 ++ " requests")%string)
          (report_entries st) /\
  NoDup (distribution st) /\
  StronglySorted label_lt (report_entries st) /\
  Permutation (report_entries st) (items (status_code_counts st)) /\
  NoDup (report_entries st) /\
  (forall label count,
     In (label, count) (report_entries st)
     <-> status_code_counts st !! label = Some count).
Proof.
  pose proof (report_entries_Permutation st) as Hperm.
  assert (NoDup (map fst (report_entries st))) as Hlabels.
  { apply NoDup_ListNoDup. eapply Permutation_NoDup.
    - apply Permutation_map. symmetry. exact Hperm.
    - apply NoDup_ListNoDup.
      apply (NoDup_fst_map_to_list (status_code_counts st)). }
  split; [reflexivity |].
  split; [by apply distribution_lines_NoDup |].
  split.
  { apply Sorted_StronglySorted; [apply label_lt_trans |].
    by apply Sorted_distinct_labels; [| apply sorted_Sorted]. }
  split; [exact Hperm |].
  split; [rewrite Hperm; apply NoDup_map_to_list |].
  intros label count. rewrite <- elem_of_map_to_list, <- list_elem_of_In.
  unfold items in Hperm. by rewrite Hperm.
Qed.

Lemma C9_sorted_report_witness :
  distribution
    (mkStats 13 10 3
       (<["NetworkError" := 1]> (<["Timeout" := 2]> (<["200" := 7]>
          (<["404" := 3]> ∅)))) [])
  = ["200: 7 requests"; "404: 3 requests"; "NetworkError: 1 requests";
     "Timeout: 2 requests"]%string /\
  In ("200"%string, 7)
     (report_entries
        (mkStats 13 10 3
           (<["NetworkError" := 1]> (<["Timeout" := 2]> (<["200" := 7]>
              (<["404" := 3]> ∅)))) [])).
Proof.
  pose proof (C9_sorted_report
    (mkStats 13 10 3
       (<["NetworkError" := 1]> (<["Timeout" := 2]> (<["200" := 7]>
          (<["404" := 3]> ∅)))) [])) as (Hlines & _ & _ & _ & _ & Hin).
  split.
  - rewrite Hlines. vm_compute. reflexivity.
  - apply Hin. vm_compute. reflexivity.
Defined.

(* ===================================================================== *)
(** * Further properties of the run                                       *)
(* ===================================================================== *)

(** ** The statistics as a tally of the schedule *)

Lemma status_at_finally_indep (o : head_outcome) (st st' : Stats) :
  status_at_finally o st = status_at_finally o st'.
Proof. destruct o as [code | [[|] [|]]]; reflexivity. Qed.

Lemma tally_app (label : string) (l1 l2 : list string) :
  tally label (l1 ++ l2) = tally label l1 + tally label l2.
Proof. unfold tally. rewrite List.filter_app, length_app. lia. Qed.

Lemma tally_nonneg (label : string) (l : list string) : 0 <= tally label l.
Proof. unfold tally. lia. Qed.

Lemma tally_pos_In (label : string) (l : list string) :
  0 < tally label l -> In label l.
Proof.
  unfold tally. induction l as [| x l IH]; simpl; [lia |].
  destruct (String.eqb_spec label x) as [-> | Hne]; [by left |].
  intros H. right. by apply IH.
Qed.

Lemma completions_cons (ev : run_event) (evs : list run_event) :
  completions (ev :: evs) = completions [ev] ++ completions evs.
Proof. unfold completions. simpl. by rewrite app_nil_r. Qed.

Lemma recorded_labels_cons (ev : run_event) (evs : list run_event) :
  recorded_labels (ev :: evs) = recorded_labels [ev] ++ recorded_labels evs.
Proof.
  unfold recorded_labels, labels_of. rewrite completions_cons. apply flat_map_app.
Qed.

Lemma count_outcomes_cons (p : head_outcome -> bool) ev evs :
  count_outcomes p (ev :: evs) = count_outcomes p [ev] + count_outcomes p evs.
Proof.
  unfold count_outcomes. rewrite completions_cons, List.filter_app, length_app. lia.
Qed.

Lemma counter_get_incr (label key : string) (c : gmap string Z) :
  counter_get (counter_incr label c) key
    = counter_get c key + (if String.eqb key label then 1 else 0).
Proof.
  destruct (String.eqb_spec key label) as [-> | Hne].
  - apply counter_get_incr_eq.
  - rewrite counter_get_incr_ne by done. lia.
Qed.

(** One scheduler event moves each number of the statistics by what the
    event contributes to the tally. *)
Lemma exec_event_tally (s s' : run_state) (ev : run_event) (label : string) :
  exec_event s ev = Some s' ->
  counter_get (status_code_counts (stats s')) label
    = counter_get (status_code_counts (stats s)) label
      + tally label (recorded_labels [ev]) /\
  successful_requests (stats s')
    = successful_requests (stats s) + count_outcomes is_response [ev] /\
  failed_requests (stats s')
    = failed_requests (stats s) + count_outcomes is_caught [ev].
Proof.
  intros Hev. destruct ev as [i t | i o t]; simpl in Hev.
  - destruct (tasks s !! i) as [[| |] |]; try discriminate.
    destruct (0 <? sem_value s); [| discriminate].
    injection Hev as <-. unfold recorded_labels, count_outcomes, tally. cbn. lia.
  - destruct (tasks s !! i) as [[| t0 |] |]; try discriminate.
    unfold recorded_labels, labels_of, count_outcomes.
    cbn [completions flat_map app].
    rewrite (status_at_finally_indep o (init_stats 0) (stats s)).
    destruct (handled o) eqn:Hh.
    + destruct (fetch_head_handled t0 t (stats s) o Hh) as (l & Hl & Hrun).
      rewrite Hrun in Hev. injection Hev as <-. rewrite Hl.
      cbn [stats status_code_counts successful_requests failed_requests].
      rewrite counter_get_incr. unfold tally.
      destruct o as [code | e]; cbn in Hh |- *.
      * destruct (String.eqb label l); cbn; lia.
      * rewrite Hh. destruct (String.eqb label l); cbn; lia.
    + destruct (fetch_head_unhandled t0 t (stats s) o Hh) as [Hl Hrun].
      rewrite Hrun in Hev. injection Hev as <-. rewrite Hl.
      destruct o as [code | e]; cbn in Hh |- *; [discriminate |].
      rewrite Hh. unfold tally. cbn. lia.
Qed.

Lemma exec_trace_tally (evs : list run_event) : forall (s s' : run_state) (label : string),
  exec_trace s evs = Some s' ->
  counter_get (status_code_counts (stats s')) label
    = counter_get (status_code_counts (stats s)) label
      + tally label (recorded_labels evs) /\
  successful_requests (stats s')
    = successful_requests (stats s) + count_outcomes is_response evs /\
  failed_requests (stats s')
    = failed_requests (stats s) + count_outcomes is_caught evs.
Proof.
  induction evs as [| ev evs IH]; intros s s' label Hrun; simpl in Hrun.
  - injection Hrun as <-. unfold recorded_labels, count_outcomes, tally. cbn. lia.
  - destruct (exec_event s ev) as [s1 |] eqn:Hev; [| discriminate].
    destruct (exec_event_tally s s1 ev label Hev) as (H1 & H2 & H3).
    destruct (IH s1 s' label Hrun) as (G1 & G2 & G3).
    rewrite recorded_labels_cons, tally_app.
    rewrite (count_outcomes_cons is_response), (count_outcomes_cons is_caught).
    lia.
Qed.

Lemma main_init_stats (cfg : RunConfig) (s0 : run_state) :
  main_init cfg = Some s0 -> stats s0 = init_stats (request_count cfg).
Proof.
  unfold main_init. destruct (concurrency cfg <? 0); [discriminate |].
  by intros [= <-].
Qed.

Lemma run_main_tally
    (cfg : RunConfig) (evs : list run_event) (s : run_state) (label : string) :
  run_main cfg evs = Some s ->
  counter_get (status_code_counts (stats s)) label
    = tally label (recorded_labels evs) /\
  successful_requests (stats s) = count_outcomes is_response evs /\
  failed_requests (stats s) = count_outcomes is_caught evs.
Proof.
  unfold run_main. destruct (main_init cfg) as [s0 |] eqn:H0; [| discriminate].
  intros Hrun. apply main_init_stats in H0.
  destruct (exec_trace_tally evs s0 s label Hrun) as (H1 & H2 & H3).
  rewrite H0 in H1, H2, H3. cbn in H1, H2, H3.
  unfold counter_get in H1 at 2. rewrite lookup_empty in H1. cbn in H1. lia.
Qed.

(** X1.  When [gather] is reached, and at any point before, the statistics
    are the tally of the requests that ended so far: the count kept for a
    label is the number of requests recorded under it, [successful_requests]
    is the number of responses (of any status), and [failed_requests] the
    number of exceptions one of the two [except] clauses took. *)
Theorem X1_stats_are_the_tally
    (cfg : RunConfig) (evs : list run_event) (s : run_state) (label : string) :
  run_main cfg evs = Some s ->
  counter_get (status_code_counts (stats s)) label
    = tally label (recorded_labels evs) /\
  successful_requests (stats s) = count_outcomes is_response evs /\
  failed_requests (stats s) = count_outcomes is_caught evs.
Proof. apply run_main_tally. Qed.

Lemma X1_stats_are_the_tally_witness :
  exists s : run_state,
    run_main (mkConfig "http://localhost:8000/" 3 2)
      [Acquire 0 0; Acquire 1 0; Complete 1 (Responded 404) 1;
       Acquire 2 1; Complete 0 (Responded 404) 2;
       Complete 2 (Raised AsyncioTimeoutError) 6] = Some s /\
    counter_get (status_code_counts (stats s)) "404" = 2 /\
    successful_requests (stats s) = 2 /\
    failed_requests (stats s) = 1.
Proof.
  eexists. split; [vm_compute; reflexivity |].
  refine (X1_stats_are_the_tally (mkConfig "http://localhost:8000/" 3 2)
    [Acquire 0 0; Acquire 1 0; Complete 1 (Responded 404) 1;
     Acquire 2 1; Complete 0 (Responded 404) 2;
     Complete 2 (Raised AsyncioTimeoutError) 6] _ "404" _).
  vm_compute. reflexivity.
Defined.

(** ** Labels and counters *)

(** A word that is not a numeral is never the label of a response. *)
Lemma str_not_word (code : Z) (w : string) : parse_int w = None -> str code <> w.
Proof. intros Hw Heq. pose proof (parse_int_str code) as H. congruence. Qed.

Lemma label_of_response (code : Z) :
  String.eqb "NetworkError" (str code) = false /\
  String.eqb "Timeout" (str code) = false.
Proof.
  split; apply String.eqb_neq; intros H; symmetry in H;
    by apply str_not_word in H.
Qed.

(** The label recorded for a handled outcome is one of three kinds. *)
Lemma status_at_finally_kinds (o : head_outcome) (st : Stats) (label : string) :
  status_at_finally o st = Some label ->
  (exists code, o = Responded code /\ label = str code)
  \/ (is_caught o = true /\ (label = "NetworkError" \/ label = "Timeout")).
Proof.
  destruct o as [code | [[|] [|]]]; cbn; intros H; simplify_eq; eauto.
Qed.

Lemma labels_of_cons (o : head_outcome) (os : list head_outcome) :
  labels_of (o :: os) = labels_of [o] ++ labels_of os.
Proof. unfold labels_of. cbn [flat_map]. by rewrite app_nil_r. Qed.

Lemma caught_outcomes_labels (os : list head_outcome) :
  Z.of_nat (length (List.filter is_caught os))
    = tally "NetworkError" (labels_of os) + tally "Timeout" (labels_of os).
Proof.
  induction os as [| o os IH]; [reflexivity |].
  rewrite labels_of_cons, !tally_app. cbn [List.filter].
  assert (tally "NetworkError" (labels_of [o]) + tally "Timeout" (labels_of [o])
          = if is_caught o then 1 else 0) as Ho.
  { destruct o as [code | [[|] [|]]]; try reflexivity.
    destruct (label_of_response code) as [H1 H2].
    change (labels_of [Responded code]) with [str code].
    unfold tally. cbn [List.filter]. by rewrite H1, H2. }
  destruct (is_caught o); cbn [length]; lia.
Qed.

Lemma exec_event_counts_positive (s s' : run_state) (ev : run_event) :
  counts_positive s -> exec_event s ev = Some s' -> counts_positive s'.
Proof.
  unfold counts_positive. intros Hpos Hev.
  destruct ev as [i t | i o t]; simpl in Hev.
  - destruct (tasks s !! i) as [[| |] |]; try discriminate.
    destruct (0 <? sem_value s); [| discriminate].
    by injection Hev as <-.
  - destruct (tasks s !! i) as [[| t0 |] |]; try discriminate.
    destruct (handled o) eqn:Hh.
    + destruct (fetch_head_handled t0 t (stats s) o Hh) as (l & _ & Hrun).
      rewrite Hrun in Hev. injection Hev as <-.
      cbn [stats status_code_counts]. intros key v.
      unfold counter_incr, counter_get.
      destruct (decide (l = key)) as [-> | Hne].
      * rewrite lookup_insert_eq. intros [= <-].
        destruct (status_code_counts (stats s) !! key) as [v0 |] eqn:Hk; cbn.
        -- specialize (Hpos key v0 Hk). lia.
        -- lia.
      * rewrite lookup_insert_ne by done. apply Hpos.
    + destruct (fetch_head_unhandled t0 t (stats s) o Hh) as [_ Hrun].
      rewrite Hrun in Hev. by injection Hev as <-.
Qed.

Lemma run_main_counts_positive (cfg : RunConfig) (evs : list run_event) (s : run_state) :
  run_main cfg evs = Some s -> counts_positive s.
Proof.
  unfold run_main. destruct (main_init cfg) as [s0 |] eqn:H0; [| discriminate].
  apply (exec_trace_invariant counts_positive).
  - intros s1 ev s2. apply exec_event_counts_positive.
  - apply main_init_stats in H0. unfold counts_positive. rewrite H0.
    intros key v. cbn. by rewrite lookup_empty.
Qed.

(** X2.  At every point of a run [failed_requests] is the sum of the counts
    kept under [NetworkError] and [Timeout], and [successful_requests] is
    the sum of all the other counts: a status code never lands under one of
    the two failure labels. *)
Theorem X2_failed_is_the_two_failure_labels
    (cfg : RunConfig) (evs : list run_event) (s : run_state) :
  run_main cfg evs = Some s ->
  failed_requests (stats s)
    = counter_get (status_code_counts (stats s)) "NetworkError"
      + counter_get (status_code_counts (stats s)) "Timeout" /\
  successful_requests (stats s)
    = counter_total (status_code_counts (stats s))
      - counter_get (status_code_counts (stats s)) "NetworkError"
      - counter_get (status_code_counts (stats s)) "Timeout".
Proof.
  intros Hrun.
  destruct (run_main_tally cfg evs s "NetworkError" Hrun) as (Hne & _ & Hfailed).
  destruct (run_main_tally cfg evs s "Timeout" Hrun) as (Hto & _ & _).
  destruct (run_main_bookkeeping cfg evs s Hrun) as (_ & _ & _ & Hsum & _).
  assert (failed_requests (stats s)
          = counter_get (status_code_counts (stats s)) "NetworkError"
            + counter_get (status_code_counts (stats s)) "Timeout") as Hf.
  { rewrite Hfailed, Hne, Hto. unfold count_outcomes, recorded_labels.
    apply (caught_outcomes_labels (completions evs)). }
  split; [exact Hf | lia].
Qed.

Lemma X2_failed_is_the_two_failure_labels_witness :
  exists s : run_state,
    run_main (mkConfig "http://localhost:8000/" 3 3)
      [Acquire 0 0; Acquire 1 0; Acquire 2 0;
       Complete 1 (Raised ServerTimeoutError) 5;
       Complete 0 (Responded 500) 6;
       Complete 2 (Raised AsyncioTimeoutError) 7] = Some s /\
    failed_requests (stats s) = 2 /\
    counter_get (status_code_counts (stats s)) "NetworkError" = 1 /\
    counter_get (status_code_counts (stats s)) "Timeout" = 1.
Proof.
  eexists. split; [vm_compute; reflexivity |].
  split; [| split; reflexivity].
  etransitivity.
  - refine (proj1 (X2_failed_is_the_two_failure_labels
      (mkConfig "http://localhost:8000/" 3 3)
      [Acquire 0 0; Acquire 1 0; Acquire 2 0;
       Complete 1 (Raised ServerTimeoutError) 5;
       Complete 0 (Responded 500) 6;
       Complete 2 (Raised AsyncioTimeoutError) 7] _ _)).
    vm_compute. reflexivity.
  - reflexivity.
Defined.

(** X3.  An entry of [status_code_counts] exists only for a label under
    which some request that ended was recorded, its count is the number of
    those requests and so at least one, and its label is [NetworkError],
    [Timeout] or the numeral of a status code that a response carried. *)
Theorem X3_every_entry_was_recorded
    (cfg : RunConfig) (evs : list run_event) (s : run_state) (key : string) (v : Z) :
  run_main cfg evs = Some s ->
  status_code_counts (stats s) !! key = Some v ->
  1 <= v /\
  v = tally key (recorded_labels evs) /\
  (key = "NetworkError" \/ key = "Timeout"
   \/ exists code, key = str code /\ In (Responded code) (completions evs)).
Proof.
  intros Hrun Hkey.
  pose proof (run_main_counts_positive cfg evs s Hrun key v Hkey) as Hpos.
  destruct (run_main_tally cfg evs s key Hrun) as (Htally & _ & _).
  unfold counter_get in Htally. rewrite Hkey in Htally. cbn in Htally.
  split; [exact Hpos |]. split; [exact Htally |].
  assert (In key (recorded_labels evs)) as Hin by (apply tally_pos_In; lia).
  unfold recorded_labels, labels_of in Hin.
  apply in_flat_map in Hin as (o & Ho & Hlabel).
  destruct (status_at_finally o (init_stats 0)) as [l |] eqn:Hl; [| done].
  destruct Hlabel as [-> | []].
  apply status_at_finally_kinds in Hl as [(code & -> & ->) | [_ [-> | ->]]]; eauto.
Qed.

Lemma X3_every_entry_was_recorded_witness :
  exists s : run_state,
    run_main (mkConfig "http://localhost:8000/" 2 2)
      [Acquire 1 0; Acquire 0 0; Complete 0 (Responded 207) 1;
       Complete 1 (Responded 207) 1] = Some s /\
    status_code_counts (stats s) !! "207" = Some 2 /\
    1 <= 2.
Proof.
  eexists. split; [vm_compute; reflexivity |]. split; [vm_compute; reflexivity |].
  refine (proj1 (X3_every_entry_was_recorded
    (mkConfig "http://localhost:8000/" 2 2)
    [Acquire 1 0; Acquire 0 0; Complete 0 (Responded 207) 1;
     Complete 1 (Responded 207) 1] _ "207" 2 _ _)).
  - vm_compute. reflexivity.
  - vm_compute. reflexivity.
Defined.

(** ** The gate over a whole run *)

Lemma count_tasks_le_length (p : task_state -> bool) (l : list task_state) :
  0 <= count_tasks p l <= Z.of_nat (length l).
Proof.
  unfold count_tasks. pose proof (List.filter_length_le p l). lia.
Qed.

Lemma no_holder_when_finished (l : list task_state) :
  forallb is_finished l = true -> count_tasks is_holding l = 0.
Proof.
  unfold count_tasks. induction l as [| a l IH]; [done |].
  cbn [forallb]. intros [Ha Hl]%andb_prop.
  destruct a; try discriminate. cbn. by apply IH.
Qed.

Lemma unfinished_cases (l : list task_state) :
  forallb is_finished l = false ->
  (exists i t0, l !! i = Some (Holding t0))
  \/ (count_tasks is_holding l = 0 /\ exists i, l !! i = Some Waiting).
Proof.
  induction l as [| a l IH]; [discriminate |].
  cbn [forallb]. destruct a as [| t0 | r]; cbn [is_finished andb].
  - intros _. destruct (forallb is_finished l) eqn:Hl.
    + right. split; [| by exists 0%nat].
      unfold count_tasks in *. cbn. by apply no_holder_when_finished.
    + destruct (IH eq_refl) as [(i & t0 & Hi) | (Hnone & i & Hi)].
      * left. by exists (S i), t0.
      * right. split; [| by exists (S i)]. unfold count_tasks in *. by cbn.
  - intros _. left. by exists 0%nat, t0.
  - intros Hl. destruct (IH Hl) as [(i & t0 & Hi) | (Hnone & i & Hi)].
    + left. by exists (S i), t0.
    + right. split; [| by exists (S i)]. unfold count_tasks in *. by cbn.
Qed.

(** X4.  Once every task has left [async with semaphore] the semaphore is
    back at its initial value, also when tasks left with an exception: a
    slot is given back on every way out of [fetch_head]. *)
Theorem X4_all_slots_returned
    (cfg : RunConfig) (evs : list run_event) (s : run_state) :
  run_main cfg evs = Some s ->
  all_finished s = true ->
  sem_value s = concurrency cfg.
Proof.
  intros Hrun Hall. destruct (run_main_gate cfg evs s Hrun) as [_ Hsum].
  unfold holders in Hsum. rewrite no_holder_when_finished in Hsum by exact Hall.
  lia.
Qed.

Lemma X4_all_slots_returned_witness :
  exists s : run_state,
    run_main (mkConfig "http://localhost:8000/" 2 1)
      [Acquire 1 0; Complete 1 (Raised CancelledError) 1;
       Acquire 0 1; Complete 0 (Responded 200) 2] = Some s /\
    all_finished s = true /\ all_returned s = false /\ sem_value s = 1.
Proof.
  eexists. split; [vm_compute; reflexivity |].
  split; [reflexivity |]. split; [reflexivity |].
  refine (X4_all_slots_returned (mkConfig "http://localhost:8000/" 2 1)
    [Acquire 1 0; Complete 1 (Raised CancelledError) 1;
     Acquire 0 1; Complete 0 (Responded 200) 2] _ _ _).
  - vm_compute. reflexivity.
  - reflexivity.
Defined.

(** X5.  With a concurrency of at least one a run cannot get stuck: while
    some task has not finished, either a waiting task can enter the
    semaphore or a task that holds a slot can end its request (with
    whatever outcome, at whatever clock reading). *)
Theorem X5_no_deadlock
    (cfg : RunConfig) (evs : list run_event) (s : run_state)
    (o : head_outcome) (t : Q) :
  1 <= concurrency cfg ->
  run_main cfg evs = Some s ->
  all_finished s = false ->
  (exists i s', exec_event s (Acquire i t) = Some s')
  \/ (exists i s', exec_event s (Complete i o t) = Some s').
Proof.
  intros Hc Hrun Hunf. destruct (run_main_gate cfg evs s Hrun) as [_ Hsum].
  destruct (unfinished_cases (tasks s) Hunf) as [(i & t0 & Hi) | (Hnone & i & Hi)].
  - right. exists i. cbn [exec_event]. rewrite Hi.
    destruct (fetch_head o t0 t (stats s)) as [st r]. eauto.
  - left. exists i. cbn [exec_event]. rewrite Hi.
    unfold holders in Hsum. rewrite Hnone in Hsum.
    rewrite (proj2 (Z.ltb_lt 0 (sem_value s))) by lia. eauto.
Qed.

Lemma X5_no_deadlock_witness :
  exists s : run_state,
    1 <= 1 /\
    run_main (mkConfig "http://localhost:8000/" 2 1) [Acquire 1 0] = Some s /\
    all_finished s = false /\
    ((exists i s', exec_event s (Acquire i 1) = Some s')
     \/ (exists i s', exec_event s (Complete i (Responded 200) 1) = Some s')).
Proof.
  eexists. split; [lia |]. split; [vm_compute; reflexivity |].
  split; [reflexivity |].
  refine (X5_no_deadlock (mkConfig "http://localhost:8000/" 2 1) [Acquire 1 0]
            _ (Responded 200) 1 _ _ _).
  - simpl. lia.
  - vm_compute. reflexivity.
  - reflexivity.
Defined.

Lemma count_holding_finished_le (l : list task_state) :
  count_tasks is_holding l + count_tasks is_finished l <= Z.of_nat (length l).
Proof.
  unfold count_tasks. induction l as [| a l IH]; [done |].
  destruct a; cbn; lia.
Qed.

Lemma count_finished_all (l : list task_state) :
  forallb is_finished l = true -> count_tasks is_finished l = Z.of_nat (length l).
Proof.
  unfold count_tasks. induction l as [| a l IH]; [done |].
  cbn [forallb]. intros [Ha Hl]%andb_prop. cbn [List.filter]. rewrite Ha.
  cbn [length]. specialize (IH Hl). lia.
Qed.

(** Each scheduler event moves one task one stage on. *)
Lemma exec_event_stage (s s' : run_state) (ev : run_event) :
  exec_event s ev = Some s' ->
  length (tasks s') = length (tasks s) /\
  holders s' + 2 * count_tasks is_finished (tasks s')
    = holders s + 2 * count_tasks is_finished (tasks s) + 1.
Proof.
  unfold holders. intros Hev. destruct ev as [i t | i o t]; simpl in Hev.
  - destruct (tasks s !! i) as [[| |] |] eqn:Hi; try discriminate.
    destruct (0 <? sem_value s); [| discriminate].
    injection Hev as <-. cbn [tasks].
    rewrite length_insert, !(count_tasks_insert _ _ _ _ _ Hi). cbn. lia.
  - destruct (tasks s !! i) as [[| t0 |] |] eqn:Hi; try discriminate.
    destruct (fetch_head o t0 t (stats s)) as [st r].
    injection Hev as <-. cbn [tasks].
    rewrite length_insert, !(count_tasks_insert _ _ _ _ _ Hi). cbn. lia.
Qed.

Lemma exec_trace_stage (evs : list run_event) : forall s s' : run_state,
  exec_trace s evs = Some s' ->
  length (tasks s') = length (tasks s) /\
  holders s' + 2 * count_tasks is_finished (tasks s')
    = holders s + 2 * count_tasks is_finished (tasks s) + Z.of_nat (length evs).
Proof.
  induction evs as [| ev evs IH]; intros s s' Hrun; simpl in Hrun.
  - injection Hrun as <-. cbn. lia.
  - destruct (exec_event s ev) as [s1 |] eqn:Hev; [| discriminate].
    destruct (exec_event_stage s s1 ev Hev) as [Hlen1 Hst1].
    destruct (IH s1 s' Hrun) as [Hlen Hst].
    cbn [length]. split; [congruence | lia].
Qed.

(** X6.  A schedule holds one event per task inside the semaphore and two
    per finished task; so no run has more than twice as many events as
    there are tasks, and a run that finished every task has exactly that
    many. *)
Theorem X6_schedule_length
    (cfg : RunConfig) (evs : list run_event) (s : run_state) :
  run_main cfg evs = Some s ->
  Z.of_nat (length evs) = holders s + 2 * count_tasks is_finished (tasks s) /\
  (length evs <= 2 * length (range (request_count cfg)))%nat /\
  (all_finished s = true ->
   length evs = (2 * length (range (request_count cfg)))%nat).
Proof.
  unfold run_main. destruct (main_init cfg) as [s0 |] eqn:H0; [| discriminate].
  intros Hrun. destruct (exec_trace_stage evs s0 s Hrun) as [Hlen Hst].
  assert (length (tasks s0) = length (range (request_count cfg))
          /\ holders s0 + 2 * count_tasks is_finished (tasks s0) = 0) as [Hl0 Hs0].
  { unfold main_init in H0. destruct (concurrency cfg <? 0); [discriminate |].
    injection H0 as <-. unfold holders. cbn [tasks].
    rewrite length_replicate, !count_tasks_replicate_false by done. done. }
  pose proof (count_holding_finished_le (tasks s)) as Hle.
  pose proof (count_tasks_le_length is_holding (tasks s)) as Hh.
  pose proof (count_tasks_le_length is_finished (tasks s)) as Hf.
  unfold holders in *.
  split; [lia |]. split; [lia |].
  intros Hall. unfold all_finished in Hall.
  rewrite (count_finished_all _ Hall) in *.
  rewrite (no_holder_when_finished _ Hall) in *. lia.
Qed.

Lemma X6_schedule_length_witness :
  exists s : run_state,
    run_main (mkConfig "http://localhost:8000/" 2 2)
      [Acquire 0 0; Acquire 1 0; Complete 1 (Responded 200) 1] = Some s /\
    holders s = 1 /\ count_tasks is_finished (tasks s) = 1 /\
    Z.of_nat 3 = holders s + 2 * count_tasks is_finished (tasks s).
Proof.
  eexists. split; [vm_compute; reflexivity |].
  split; [reflexivity |]. split; [reflexivity |].
  refine (proj1 (X6_schedule_length (mkConfig "http://localhost:8000/" 2 2)
    [Acquire 0 0; Acquire 1 0; Complete 1 (Responded 200) 1] _ _)).
  vm_compute. reflexivity.
Defined.

(** X7.  With [--concurrency 0] nothing ever happens: the semaphore starts
    without a free slot, no task can enter it, and so a run with at least
    one request never gets to the end of [gather]. *)
Theorem X7_concurrency_zero_never_starts
    (cfg : RunConfig) (evs : list run_event) (s : run_state) :
  concurrency cfg = 0 ->
  run_main cfg evs = Some s ->
  evs = [] /\
  (1 <= request_count cfg -> all_returned s = false /\ all_finished s = false).
Proof.
  unfold run_main, main_init. intros Hc. rewrite Hc. cbn [Z.ltb Z.compare].
  destruct evs as [| ev evs]; cbn [exec_trace].
  - intros [= <-]. split; [done |]. intros Hn.
    unfold all_returned, all_finished, range. cbn [tasks].
    rewrite length_seqZ.
    destruct (Z.to_nat (request_count cfg)) as [| k] eqn:Hk; [lia |]. done.
  - intros Hrun. exfalso.
    destruct ev as [i t | i o t]; cbn [exec_event tasks sem_value] in Hrun.
    + destruct (replicate _ Waiting !! i) as [[| |] |]; discriminate.
    + destruct (replicate _ Waiting !! i) as [y |] eqn:Hi; [| discriminate].
      apply lookup_replicate in Hi as [-> _]. discriminate.
Qed.

Lemma X7_concurrency_zero_never_starts_witness :
  exists s : run_state,
    concurrency (mkConfig "http://localhost:8000/" 4 0) = 0 /\
    run_main (mkConfig "http://localhost:8000/" 4 0) [] = Some s /\
    all_returned s = false.
Proof.
  eexists. split; [reflexivity |]. split; [reflexivity |].
  refine (proj1 (proj2 (X7_concurrency_zero_never_starts
    (mkConfig "http://localhost:8000/" 4 0) [] _ _ _) _)).
  - reflexivity.
  - reflexivity.
  - simpl. lia.
Defined.

(** ** Runs in which every request ends the same way *)

Lemma filter_uniform (p : head_outcome -> bool) (o : head_outcome) (os : list head_outcome) :
  Forall (eq o) os ->
  length (List.filter p os) = if p o then length os else 0%nat.
Proof.
  induction 1 as [| x os <- _ IH]; [by destruct (p o) |].
  cbn [List.filter length]. destruct (p o); cbn [length]; lia.
Qed.

Lemma tally_uniform (o : head_outcome) (label key : string) (os : list head_outcome) :
  Forall (eq o) os ->
  status_at_finally o (init_stats 0) = Some label ->
  tally key (labels_of os)
    = if String.eqb key label then Z.of_nat (length os) else 0.
Proof.
  intros Hall Hlabel. induction Hall as [| x os <- _ IH].
  - by destruct (String.eqb key label).
  - rewrite labels_of_cons, tally_app, IH.
    unfold labels_of at 1. cbn [flat_map]. rewrite Hlabel. unfold tally.
    cbn [app List.filter length]. destruct (String.eqb key label); cbn [length]; lia.
Qed.

Lemma lookup_of_counter_get (c : gmap string Z) (key : string) :
  (forall k v, c !! k = Some v -> 1 <= v) ->
  c !! key = if counter_get c key =? 0 then None else Some (counter_get c key).
Proof.
  intros Hpos. unfold counter_get.
  destruct (c !! key) as [v |] eqn:Hk; cbn; [| done].
  specialize (Hpos key v Hk). by rewrite (proj2 (Z.eqb_neq v 0)) by lia.
Qed.

(** X8.  Take a run of a non-negative number of requests that got to the
    end of [gather], in which every request ended with the same outcome [o]
    (every response had the same status, or every request failed the same
    way).  Then [status_code_counts] is the single entry mapping the label
    of [o] to [request_count] (no entry at all for zero requests), and the
    whole of [request_count] is in [successful_requests] when [o] is a
    response and in [failed_requests] otherwise. *)
Theorem X8_uniform_run
    (cfg : RunConfig) (evs : list run_event) (s : run_state)
    (o : head_outcome) (label : string) :
  0 <= request_count cfg ->
  run_main cfg evs = Some s ->
  all_returned s = true ->
  Forall (eq o) (completions evs) ->
  status_at_finally o (init_stats 0) = Some label ->
  status_code_counts (stats s)
    = (if request_count cfg =? 0 then ∅ else {[ label := request_count cfg ]}) /\
  successful_requests (stats s) = (if is_response o then request_count cfg else 0) /\
  failed_requests (stats s) = (if is_response o then 0 else request_count cfg).
Proof.
  intros Hn Hrun Hall Huni Hlabel.
  destruct (run_main_bookkeeping cfg evs s Hrun) as (_ & Hlen & Hdone & _ & _).
  unfold completed in Hdone. rewrite (count_tasks_all _ _ Hall), Hlen in Hdone.
  unfold range in Hdone. rewrite length_seqZ, Z2Nat.id in Hdone by exact Hn.
  destruct (run_main_tally cfg evs s label Hrun) as (_ & Hs & Hf).
  unfold count_outcomes in Hs, Hf.
  rewrite (filter_uniform is_response o _ Huni) in Hs.
  rewrite (filter_uniform is_caught o _ Huni) in Hf.
  assert (is_response o || is_caught o = true /\ is_response o && is_caught o = false)
    as [Hor Hand].
  { destruct o as [code | [[|] [|]]]; cbn in Hlabel |- *; done. }
  assert (Z.of_nat (length (completions evs)) = request_count cfg) as Hm.
  { destruct (is_response o), (is_caught o); cbn in Hor, Hand; try discriminate; lia. }
  split; [| destruct (is_response o), (is_caught o); cbn in Hor, Hand;
            try discriminate; split; lia].
  apply map_eq. intros key.
  rewrite (lookup_of_counter_get _ key (run_main_counts_positive cfg evs s Hrun)).
  destruct (run_main_tally cfg evs s key Hrun) as (-> & _ & _).
  unfold recorded_labels. rewrite (tally_uniform o label key _ Huni Hlabel), Hm.
  destruct (String.eqb_spec key label) as [-> | Hne].
  - destruct (request_count cfg =? 0) eqn:H0.
    + by rewrite lookup_empty.
    + by rewrite lookup_singleton_eq.
  - cbn [Z.eqb]. destruct (request_count cfg =? 0).
    + by rewrite lookup_empty.
    + by rewrite lookup_singleton_ne.
Qed.

Lemma X8_uniform_run_witness :
  exists s : run_state,
    0 <= 3 /\
    run_main (mkConfig "http://localhost:8000/" 3 2)
      [Acquire 0 0; Acquire 1 0; Complete 0 (Responded 401) 1;
       Acquire 2 1; Complete 2 (Responded 401) 2;
       Complete 1 (Responded 401) 3] = Some s /\
    all_returned s = true /\
    status_code_counts (stats s) = {[ "401"%string := 3 ]} /\
    successful_requests (stats s) = 3 /\
    failed_requests (stats s) = 0.
Proof.
  eexists. split; [lia |]. split; [vm_compute; reflexivity |].
  split; [reflexivity |].
  refine (X8_uniform_run (mkConfig "http://localhost:8000/" 3 2)
    [Acquire 0 0; Acquire 1 0; Complete 0 (Responded 401) 1;
     Acquire 2 1; Complete 2 (Responded 401) 2;
     Complete 1 (Responded 401) 3] _ (Responded 401) "401" _ _ _ _ _).
  - simpl. lia.
  - vm_compute. reflexivity.
  - reflexivity.
  - repeat constructor.
  - reflexivity.
Defined.

(** ** Latencies *)

(** The start time of every task inside the semaphore is not after any
    of the clock readings still to come. *)
Lemma exec_trace_latencies (evs : list run_event) : forall s s' : run_state,
  StronglySorted Qle (map event_time evs) ->
  (forall i t0, tasks s !! i = Some (Holding t0) ->
                Forall (Qle t0) (map event_time evs)) ->
  Forall (fun d => (0 <= d)%Q) (total_time_per_request (stats s)) ->
  exec_trace s evs = Some s' ->
  Forall (fun d => (0 <= d)%Q) (total_time_per_request (stats s')).
Proof.
  induction evs as [| ev evs IH]; intros s s' Hsorted Hstart Hlat Hrun;
    simpl in Hrun.
  - by injection Hrun as <-.
  - destruct (exec_event s ev) as [s1 |] eqn:Hev; [| discriminate].
    cbn [map] in Hsorted, Hstart.
    apply StronglySorted_inv in Hsorted as [Hsorted Hhead].
    apply (IH s1 s' Hsorted); [| | exact Hrun].
    + intros j t1 Hj. destruct ev as [i t | i o t]; simpl in Hev.
      * destruct (tasks s !! i) as [[| |] |] eqn:Hi; try discriminate.
        destruct (0 <? sem_value s); [| discriminate].
        injection Hev as <-. cbn [tasks] in Hj.
        apply list_lookup_insert_Some in Hj as [(_ & [= <-] & _) | (_ & Hj)].
        -- exact Hhead.
        -- specialize (Hstart j t1 Hj). by inversion Hstart.
      * destruct (tasks s !! i) as [[| t0 |] |] eqn:Hi; try discriminate.
        destruct (fetch_head o t0 t (stats s)) as [st r].
        injection Hev as <-. cbn [tasks] in Hj.
        apply list_lookup_insert_Some in Hj as [(_ & [=] & _) | (_ & Hj)].
        specialize (Hstart j t1 Hj). by inversion Hstart.
    + destruct ev as [i t | i o t]; simpl in Hev.
      * destruct (tasks s !! i) as [[| |] |]; try discriminate.
        destruct (0 <? sem_value s); [| discriminate].
        by injection Hev as <-.
      * destruct (tasks s !! i) as [[| t0 |] |] eqn:Hi; try discriminate.
        specialize (Hstart i t0 Hi). cbn [event_time] in Hstart.
        apply Forall_cons in Hstart as [Hle _].
        destruct (handled o) eqn:Hh.
        -- destruct (fetch_head_handled t0 t (stats s) o Hh) as (l & _ & Hfh).
           rewrite Hfh in Hev. injection Hev as <-.
           cbn [stats total_time_per_request].
           apply Forall_app. split; [exact Hlat |].
           constructor; [| constructor].
           exact (proj1 (Qle_minus_iff t0 t) Hle).
        -- destruct (fetch_head_unhandled t0 t (stats s) o Hh) as [_ Hfh].
           rewrite Hfh in Hev. by injection Hev as <-.
Qed.

(** X9.  When the clock readings of a run never go back (as those of
    [time.perf_counter] do not), no latency in [total_time_per_request] is
    negative: a task reads its start time once it is inside the semaphore,
    and its end time later. *)
Theorem X9_latencies_nonnegative
    (cfg : RunConfig) (evs : list run_event) (s : run_state) :
  run_main cfg evs = Some s ->
  StronglySorted Qle (map event_time evs) ->
  Forall (fun d => (0 <= d)%Q) (total_time_per_request (stats s)).
Proof.
  unfold run_main. destruct (main_init cfg) as [s0 |] eqn:H0; [| discriminate].
  intros Hrun Hsorted.
  apply (exec_trace_latencies evs s0 s Hsorted); [| | exact Hrun].
  - unfold main_init in H0. destruct (concurrency cfg <? 0); [discriminate |].
    injection H0 as <-. cbn [tasks]. intros i t0 Hi.
    apply lookup_replicate in Hi as [[=] _].
  - apply main_init_stats in H0. rewrite H0. constructor.
Qed.

Lemma X9_latencies_nonnegative_witness :
  exists s : run_state,
    run_main (mkConfig "http://localhost:8000/" 2 2)
      [Acquire 0 (1 # 2); Acquire 1 (1 # 2); Complete 1 (Responded 200) (3 # 4);
       Complete 0 (Raised ClientConnectorError) (11 # 2)] = Some s /\
    total_time_per_request (stats s)
      = [Qminus (3 # 4) (1 # 2); Qminus (11 # 2) (1 # 2)] /\
    Forall (fun d => (0 <= d)%Q) (total_time_per_request (stats s)).
Proof.
  eexists. split; [vm_compute; reflexivity |]. split; [reflexivity |].
  refine (X9_latencies_nonnegative (mkConfig "http://localhost:8000/" 2 2)
    [Acquire 0 (1 # 2); Acquire 1 (1 # 2); Complete 1 (Responded 200) (3 # 4);
     Complete 0 (Raised ClientConnectorError) (11 # 2)] _ _ _).
  - vm_compute. reflexivity.
  - cbn [map event_time].
    repeat (constructor; [| repeat (constructor; try discriminate)]).
    constructor.
Defined.

(* ===================================================================== *)
(** * Further properties of the dispatch loop                             *)
(* ===================================================================== *)

Lemma div_succ (m k : Z) :
  0 < m -> 0 <= k ->
  (k + 1) / m = k / m + (if (k + 1) mod m =? 0 then 1 else 0).
Proof.
  intros Hm Hk.
  pose proof (Z.div_mod k m ltac:(lia)) as Hdm.
  pose proof (Z.mod_pos_bound k m Hm) as Hr.
  destruct (Z.eq_dec (k mod m + 1) m) as [Hfull | Hpart].
  - rewrite <- (Z.mod_unique (k + 1) m (k / m + 1) 0) by lia.
    rewrite <- (Z.div_unique (k + 1) m (k / m + 1) 0) by lia. done.
  - rewrite <- (Z.mod_unique (k + 1) m (k / m) (k mod m + 1)) by lia.
    rewrite <- (Z.div_unique (k + 1) m (k / m) (k mod m + 1)) by lia.
    rewrite (proj2 (Z.eqb_neq (k mod m + 1) 0)) by lia. lia.
Qed.

(** Among the first [k] indices, [k / m] have a successor that is a
    multiple of [m]. *)
Lemma count_multiples (m : Z) (k : nat) :
  0 < m ->
  Z.of_nat (length (List.filter (at_multiple m) (seqZ 0 (Z.of_nat k))))
    = Z.of_nat k / m.
Proof.
  intros Hm. induction k as [| k IH].
  - by rewrite Z.div_0_l by lia.
  - rewrite seqZ_S, List.filter_app, length_app, Nat2Z.inj_add, IH.
    replace (Z.of_nat (S k)) with (Z.of_nat k + 1) by lia.
    rewrite (div_succ m (Z.of_nat k)) by lia.
    cbn [List.filter]. unfold at_multiple. rewrite Z.add_0_l.
    destruct ((Z.of_nat k + 1) mod m =? 0); cbn [length]; lia.
Qed.

Lemma sleeps_of_iteration (cfg : RunConfig) (raw : Z -> Z) (i : Z) :
  List.filter is_sleep (iteration cfg raw i)
    = if at_multiple 10000 i then [Sleep 1] else [].
Proof.
  unfold iteration. cbn [List.filter is_sleep].
  apply (sleeps_of_progress_update (request_count cfg) i).
Qed.

Lemma sleeps_of_iterations (cfg : RunConfig) (raw : Z -> Z) (l : list Z) :
  List.filter is_sleep (flat_map (iteration cfg raw) l)
    = repeat (Sleep 1) (length (List.filter (at_multiple 10000) l)).
Proof.
  induction l as [| i l IH]; [reflexivity |].
  cbn [flat_map List.filter]. rewrite List.filter_app, IH, sleeps_of_iteration.
  by destruct (at_multiple 10000 i).
Qed.

(** X10.  For a non-negative [request_count] the dispatch loop sleeps
    [request_count / 10000] times (rounded down), one second each time:
    the pauses delay the start of [gather] by that many seconds. *)
Theorem X10_number_of_pauses (cfg : RunConfig) (raw : Z -> Z) :
  0 <= request_count cfg ->
  List.filter is_sleep (dispatch cfg raw)
    = repeat (Sleep 1) (Z.to_nat (request_count cfg / 10000)).
Proof.
  intros Hn. rewrite dispatch_iterations, sleeps_of_iterations. f_equal.
  unfold range. rewrite <- (Z2Nat.id (request_count cfg)) at 1 by exact Hn.
  apply Nat2Z.inj. rewrite count_multiples by lia.
  rewrite !Z2Nat.id; [done | apply Z.div_pos; lia | lia].
Qed.

Lemma X10_number_of_pauses_witness :
  0 <= 20500 /\
  List.filter is_sleep
    (dispatch (mkConfig "http://localhost:8000" 20500 100) (fun i => i))
  = [Sleep 1; Sleep 1].
Proof.
  split; [lia |].
  apply (X10_number_of_pauses
           (mkConfig "http://localhost:8000" 20500 100) (fun i => i)).
  simpl. lia.
Defined.

Lemma writes_of_iteration (cfg : RunConfig) (raw : Z -> Z) (i : Z) :
  length (List.filter is_write (iteration cfg raw i))
    = if at_multiple 1000 i || (i + 1 =? request_count cfg) then 1%nat else 0%nat.
Proof.
  unfold iteration, progress_update, at_multiple. cbn [List.filter is_write].
  destruct ((i + 1) mod 10000 =? 0) eqn:H10k.
  - apply Z.eqb_eq, multiple_of_10000_1000 in H10k. by rewrite H10k.
  - by destruct (((i + 1) mod 1000 =? 0) || (i + 1 =? request_count cfg)).
Qed.

Lemma writes_of_iterations (cfg : RunConfig) (raw : Z -> Z) (l : list Z) :
  length (List.filter is_write (flat_map (iteration cfg raw) l))
    = length (List.filter
                (fun i => at_multiple 1000 i || (i + 1 =? request_count cfg)) l).
Proof.
  induction l as [| i l IH]; [reflexivity |].
  cbn [flat_map List.filter].
  rewrite List.filter_app, length_app, IH, writes_of_iteration.
  by destruct (at_multiple 1000 i || (i + 1 =? request_count cfg)).
Qed.

(** The last iteration writes a line that shows the total. *)
Lemma last_iteration_shows_total (cfg : RunConfig) (raw : Z -> Z) (i : Z) :
  i + 1 = request_count cfg ->
  exists url text rest,
    iteration cfg raw i = Submit url :: StdoutWrite text :: rest /\
    String.prefix (progress_line (request_count cfg) (request_count cfg)) text = true /\
    List.filter is_write rest = [].
Proof.
  intros Hlast. unfold iteration, progress_update. rewrite Hlast, Z.eqb_refl.
  destruct (request_count cfg mod 10000 =? 0).
  - eexists _, _, _. split; [reflexivity |]. split; [apply prefix_append | done].
  - rewrite orb_true_r.
    eexists _, _, _. split; [reflexivity |]. split; [apply prefix_refl | done].
Qed.

(** X11.  For a non-negative [request_count] the dispatch loop writes
    [request_count / 1000], rounded up, progress lines; and when there is
    at least one request, the last line it writes shows
    [request_count]/[request_count], whether or not the total is a
    multiple of 1000. *)
Theorem X11_progress_lines (cfg : RunConfig) (raw : Z -> Z) :
  0 <= request_count cfg ->
  Z.of_nat (length (List.filter is_write (dispatch cfg raw)))
    = (request_count cfg + 999) / 1000 /\
  (1 <= request_count cfg ->
   exists before text rest,
     dispatch cfg raw = before ++ StdoutWrite text :: rest /\
     String.prefix (progress_line (request_count cfg) (request_count cfg)) text
       = true /\
     List.filter is_write rest = []).
Proof.
  intros Hn. rewrite dispatch_iterations. unfold range.
  destruct (Z.to_nat (request_count cfg)) as [| k] eqn:Hk.
  - assert (request_count cfg = 0) as -> by lia. split; [reflexivity | lia].
  - assert (request_count cfg = Z.of_nat (S k)) as Hnk by lia.
    assert (seqZ 0 (request_count cfg) = seqZ 0 (Z.of_nat k) ++ [Z.of_nat k])
      as -> by (by rewrite Hnk, seqZ_S, Z.add_0_l).
    split.
    + rewrite writes_of_iterations, List.filter_app, length_app.
      rewrite (List.filter_ext_in _ (at_multiple 1000)).
      * rewrite Nat2Z.inj_add, count_multiples by lia.
        cbn [List.filter]. rewrite (proj2 (Z.eqb_eq _ _)) by lia.
        rewrite orb_true_r. cbn [length].
        replace (request_count cfg + 999) with (Z.of_nat k + 1 * 1000) by lia.
        rewrite Z.div_add by lia. lia.
      * intros i Hi. apply list_elem_of_In, elem_of_seqZ in Hi.
        rewrite (proj2 (Z.eqb_neq _ _)) by lia. apply orb_false_r.
    + intros _. rewrite flat_map_app. cbn [flat_map]. rewrite app_nil_r.
      destruct (last_iteration_shows_total cfg raw (Z.of_nat k) ltac:(lia))
        as (url & text & rest & Hit & Hshow & Hrest).
      exists (flat_map (iteration cfg raw) (seqZ 0 (Z.of_nat k)) ++ [Submit url]),
        text, rest.
      split; [| done]. rewrite Hit, <- app_assoc. reflexivity.
Qed.

Lemma X11_progress_lines_witness :
  0 <= 2500 /\
  Z.of_nat (length (List.filter is_write
    (dispatch (mkConfig "http://localhost:8000" 2500 100) (fun i => i)))) = 3.
Proof.
  split; [lia |].
  apply (X11_progress_lines
           (mkConfig "http://localhost:8000" 2500 100) (fun i => i)).
  simpl. lia.
Defined.

(** X12.  A [request_count] of zero or below dispatches nothing: the loop
    produces no event at all, the run has no task and ends at once, and the
    report is made from the initial statistics, with an empty status
    distribution and [total_requests] still holding the number given. *)
Theorem X12_nothing_to_dispatch
    (cfg : RunConfig) (raw : Z -> Z) (evs : list run_event) (s : run_state) :
  request_count cfg <= 0 ->
  run_main cfg evs = Some s ->
  dispatch cfg raw = [] /\
  evs = [] /\
  tasks s = [] /\
  stats s = init_stats (request_count cfg) /\
  all_returned s = true /\
  distribution (stats s) = [].
Proof.
  intros Hn. unfold run_main, main_init, dispatch, range.
  rewrite seqZ_nil by exact Hn. cbn [length replicate foldl].
  destruct (concurrency cfg <? 0); [discriminate |].
  destruct evs as [| ev evs]; cbn [exec_trace].
  - intros [= <-]. repeat split.
  - destruct ev as [i t | i o t]; cbn; discriminate.
Qed.

Lemma X12_nothing_to_dispatch_witness :
  exists s : run_state,
    -3 <= 0 /\
    run_main (mkConfig "http://localhost:8000" (-3) 100) [] = Some s /\
    total_requests (stats s) = -3 /\
    dispatch (mkConfig "http://localhost:8000" (-3) 100) (fun i => i) = [].
Proof.
  eexists. split; [lia |]. split; [reflexivity |]. split; [reflexivity |].
  refine (proj1 (X12_nothing_to_dispatch
    (mkConfig "http://localhost:8000" (-3) 100) (fun i => i) [] _ _ _)).
  - simpl. lia.
  - reflexivity.
Defined.

(** ** Trailing slashes of the base URL *)

Lemma rstrip_copies (c : ascii) (k : nat) : rstrip c (copies c k) = EmptyString.
Proof.
  induction k as [| k IH]; [reflexivity |].
  cbn [copies rstrip]. by rewrite IH, Ascii.eqb_refl.
Qed.

Lemma rstrip_app_copies (c : ascii) (s : string) (k : nat) :
  rstrip c (s ++ copies c k) = rstrip c s.
Proof.
  induction s as [| a s IH].
  - change (rstrip c (copies c k) = EmptyString). apply rstrip_copies.
  - change (rstrip c (String a (s ++ copies c k)%string) = rstrip c (String a s)).
    cbn [rstrip]. by rewrite IH.
Qed.

Lemma rstrip_idempotent (c : ascii) (s : string) :
  rstrip c (rstrip c s) = rstrip c s.
Proof.
  destruct (rstrip_split c s) as [k Hk].
  rewrite Hk at 2. by rewrite rstrip_app_copies.
Qed.

(** X13.  The URLs do not depend on how many slashes end the base URL:
    a base with further trailing slashes, and a base already stripped of
    them, give the same URL for every value. *)
Theorem X13_trailing_slashes_do_not_matter (base : string) (k : nat) (b : Z) :
  target_url (base ++ copies "/"%char k) b = target_url base b /\
  target_url (rstrip "/"%char base) b = target_url base b.
Proof.
  unfold target_url. by rewrite rstrip_app_copies, rstrip_idempotent.
Qed.

(* ===================================================================== *)
(** * Further properties of the report                                    *)
(* ===================================================================== *)

Lemma sum_counts_Permutation (l1 l2 : list (string * Z)) :
  Permutation l1 l2 -> sum_counts l1 = sum_counts l2.
Proof.
  unfold sum_counts. induction 1; cbn [foldr]; lia.
Qed.

Lemma counter_total_items (c : gmap string Z) :
  counter_total c = sum_counts (items c).
Proof.
  unfold counter_total, items, sum_counts. rewrite map_fold_foldr.
  induction (map_to_list c) as [| [key v] l IH]; [reflexivity |].
  cbn. by rewrite IH.
Qed.

(** X14.  The report lists one line per label held in
    [status_code_counts], and the counts on its lines add up to
    [successful_requests + failed_requests] at any point of a run; for a
    non-negative [request_count], at the end of a run in which every
    request completed, they add up to [total_requests]. *)
Theorem X14_report_adds_up
    (cfg : RunConfig) (evs : list run_event) (s : run_state) :
  run_main cfg evs = Some s ->
  length (distribution (stats s)) = size (status_code_counts (stats s)) /\
  sum_counts (report_entries (stats s))
    = successful_requests (stats s) + failed_requests (stats s) /\
  (0 <= request_count cfg -> all_returned s = true ->
   sum_counts (report_entries (stats s)) = total_requests (stats s)).
Proof.
  intros Hrun.
  destruct (run_main_bookkeeping cfg evs s Hrun) as (Htot & Hlen & Hdone & Hsum & _).
  pose proof (report_entries_Permutation (stats s)) as Hperm.
  assert (sum_counts (report_entries (stats s))
          = successful_requests (stats s) + failed_requests (stats s)) as Hadd.
  { rewrite (sum_counts_Permutation _ _ Hperm), <- counter_total_items. exact Hsum. }
  split; [| split; [exact Hadd |]].
  - unfold distribution. rewrite length_map, (Permutation_length Hperm).
    unfold items. apply length_map_to_list.
  - intros Hn Hall. rewrite Hadd, Hdone, Htot. unfold completed.
    rewrite (count_tasks_all _ _ Hall), Hlen. unfold range.
    rewrite length_seqZ. lia.
Qed.

Lemma X14_report_adds_up_witness :
  exists s : run_state,
    run_main (mkConfig "http://localhost:8000/" 3 3)
      [Acquire 0 0; Acquire 1 0; Acquire 2 0; Complete 1 (Responded 200) 1;
       Complete 0 (Responded 404) 1; Complete 2 (Responded 200) 2] = Some s /\
    distribution (stats s) = ["200: 2 requests"; "404: 1 requests"]%string /\
    sum_counts (report_entries (stats s)) = 3.
Proof.
  eexists. split; [vm_compute; reflexivity |].
  split; [vm_compute; reflexivity |].
  etransitivity.
  - refine (proj1 (proj2 (X14_report_adds_up
      (mkConfig "http://localhost:8000/" 3 3)
      [Acquire 0 0; Acquire 1 0; Acquire 2 0; Complete 1 (Responded 200) 1;
       Complete 0 (Responded 404) 1; Complete 2 (Responded 200) 2] _ _))).
    vm_compute. reflexivity.
  - reflexivity.
Defined.

(* ===================================================================== *)
(** * The test server                                                     *)
(* ===================================================================== *)

Lemma split_once_Some (sep : ascii) (s l r : string) :
  split_once sep s = Some (l, r)
  <-> s = (l ++ String sep r)%string /\ occurs sep l = false.
Proof.
  revert l. induction s as [| a s IH]; intros l; cbn [split_once].
  - split; [discriminate |]. intros [H _]. by destruct l.
  - destruct (Ascii.eqb_spec a sep) as [-> | Hne].
    + split.
      * intros [= <- <-]. by split.
      * intros [H Hocc]. destruct l as [| c l]; [by injection H as -> |].
        injection H as <- _. cbn in Hocc. by rewrite Ascii.eqb_refl in Hocc.
    + destruct (split_once sep s) as [[l' r'] |] eqn:Hs.
      * split.
        -- intros [= <- <-]. destruct (proj1 (IH l') eq_refl) as [-> Hocc].
           split; [reflexivity |]. cbn [occurs].
           by rewrite (proj2 (Ascii.eqb_neq a sep) Hne).
        -- intros [H Hocc]. destruct l as [| c l]; [by injection H as -> |].
           injection H as <- H. cbn [occurs] in Hocc.
           apply orb_false_elim in Hocc as [_ Hocc].
           pose proof (proj2 (IH l) (conj H Hocc)) as Heq. congruence.
      * split; [discriminate |].
        intros [H Hocc]. destruct l as [| c l]; [by injection H as -> |].
        injection H as <- H. cbn [occurs] in Hocc.
        apply orb_false_elim in Hocc as [_ Hocc].
        pose proof (proj2 (IH l) (conj H Hocc)). discriminate.
Qed.

Lemma check_credentials_Some (decode : string -> option string) (h u : string) :
  check_credentials decode h = Some u
  <-> u = USERNAME /\
      exists scheme enc,
        h = (scheme ++ String " "%char enc)%string /\
        occurs " "%char scheme = false /\
        lower scheme = "basic"%string /\
        decode enc = Some "testuser:testpassword"%string.
Proof.
  unfold check_credentials. split.
  - destruct (split_once " "%char h) as [[scheme enc] |] eqn:Hsplit; [| discriminate].
    apply split_once_Some in Hsplit as [-> Hocc].
    destruct (String.eqb_spec (lower scheme) "basic") as [Hscheme |]; [| discriminate].
    destruct (decode enc) as [d |] eqn:Hdec; [| discriminate].
    destruct (split_once ":"%char d) as [[iu ip] |] eqn:Hcred; [| discriminate].
    apply split_once_Some in Hcred as [-> _].
    destruct (String.eqb_spec iu USERNAME) as [-> |]; [| discriminate].
    destruct (String.eqb_spec ip PASSWORD) as [-> |]; [| discriminate].
    intros [= <-]. split; [reflexivity |]. by exists scheme, enc.
  - intros (-> & scheme & enc & -> & Hocc & Hscheme & Hdec).
    rewrite (proj2 (split_once_Some " "%char _ scheme enc) (conj eq_refl Hocc)).
    by rewrite Hscheme, Hdec.
Qed.

(** X15.  [authenticate] accepts a request exactly when it has an
    [Authorization] header that is a scheme, one space and a rest, in which
    the scheme is [basic] in any mix of cases and the rest decodes to
    [testuser:testpassword]; a missing header, another scheme, a rest that
    does not decode, or any other user name or password is refused. *)
Theorem X15_authenticate_accepts
    (decode : string -> option string) (auth_header : option string) :
  (authenticate decode auth_header).1 = true
  <-> exists scheme enc,
        auth_header = Some (scheme ++ String " "%char enc)%string /\
        occurs " "%char scheme = false /\
        lower scheme = "basic"%string /\
        decode enc = Some "testuser:testpassword"%string.
Proof.
  unfold authenticate. destruct auth_header as [h |].
  - destruct (check_credentials decode h) as [u |] eqn:Hc; cbn [fst]; split.
    + intros _. apply check_credentials_Some in Hc as (_ & scheme & enc & -> & H).
      by exists scheme, enc.
    + done.
    + discriminate.
    + intros (scheme & enc & [= ->] & H).
      assert (check_credentials decode (scheme ++ String " "%char enc)
              = Some USERNAME) as Hok
        by (apply check_credentials_Some; split; [done | by exists scheme, enc]).
      congruence.
  - cbn [fst]. split; [discriminate |]. intros (scheme & enc & [=] & _).
Qed.

Lemma X15_authenticate_accepts_witness :
  (authenticate
     (fun enc => if String.eqb enc "dGVzdHVzZXI6dGVzdHBhc3N3b3Jk"
                 then Some "testuser:testpassword"%string else None)
     (Some "BaSiC dGVzdHVzZXI6dGVzdHBhc3N3b3Jk"%string)).1 = true.
Proof.
  apply (proj2 (X15_authenticate_accepts _ _)).
  exists "BaSiC"%string, "dGVzdHVzZXI6dGVzdHBhc3N3b3Jk"%string.
  repeat split.
Defined.

(** X16.  [do_HEAD] answers 401, with a [WWW-Authenticate] header naming
    the realm, exactly when [authenticate] refuses the request, whatever the
    path; otherwise 200 for a path that starts with [/evidence/] and 404
    for any other path, with no header of its own.  The user name it leaves
    for the log line is [testuser] for an accepted request, [-] when the
    header is missing and [invalid_user] otherwise: never text taken from
    the request. *)
Theorem X16_do_HEAD_answers
    (decode : string -> option string) (auth_header : option string) (path : string) :
  let ok := (authenticate decode auth_header).1 in
  let r := do_HEAD decode auth_header path in
  (resp_status r.1 = 401 <-> ok = false) /\
  (resp_status r.1 = 200 <-> ok = true /\ String.prefix "/evidence/" path = true) /\
  (resp_status r.1 = 404 <-> ok = true /\ String.prefix "/evidence/" path = false) /\
  resp_headers r.1
    = (if ok then []
       else [("WWW-Authenticate"%string,
              ("Basic realm=" ++ double_quote ++ "WebDAV Test Realm"
                 ++ double_quote)%string)]) /\
  r.2 = (if ok then "testuser"%string
         else if auth_header is None then "-"%string else "invalid_user"%string).
Proof.
  cbv zeta. unfold do_HEAD, authenticate.
  destruct auth_header as [h |]; [| cbn; repeat split; intros; try done;
                                     by destruct H].
  destruct (check_credentials decode h) as [u |] eqn:Hc; cbn [fst snd negb].
  - apply check_credentials_Some in Hc as [-> _].
    destruct (String.prefix "/evidence/" path); cbn;
      repeat split; intros; try done; by destruct H.
  - cbn. repeat split; intros; try done; by destruct H.
Qed.

Lemma X16_do_HEAD_answers_witness :
  resp_status (do_HEAD (fun _ => None) (Some "Basic Zm9vOmJhcg=="%string)
                       "/evidence/3F").1 = 401 /\
  (do_HEAD (fun _ => None) (Some "Basic Zm9vOmJhcg=="%string) "/evidence/3F").2
    = "invalid_user"%string.
Proof.
  pose proof (X16_do_HEAD_answers (fun _ => None)
                (Some "Basic Zm9vOmJhcg=="%string) "/evidence/3F")
    as (H401 & _ & _ & _ & Huser).
  split; [apply H401; reflexivity | exact Huser].
Defined.




(* ===================================================================== *)
(** * Every request runs once                                             *)
(* ===================================================================== *)

Lemma completed_indices_cons (ev : run_event) (evs : list run_event) :
  completed_indices (ev :: evs) = completed_indices [ev] ++ completed_indices evs.
Proof. unfold completed_indices. simpl. by rewrite app_nil_r. Qed.

(** A finished task stays finished, and no event is about it any more. *)
Lemma exec_event_finished (s s' : run_state) (ev : run_event) (i : nat) (r : fetch_result) :
  exec_event s ev = Some s' ->
  tasks s !! i = Some (Finished r) ->
  tasks s' !! i = Some (Finished r) /\ ~ In i (completed_indices [ev]).
Proof.
  intros Hev Hi. destruct ev as [j t | j o t]; simpl in Hev.
  - destruct (tasks s !! j) as [[| |] |] eqn:Hj; try discriminate.
    destruct (0 <? sem_value s); [| discriminate].
    injection Hev as <-. cbn [tasks completed_indices flat_map].
    split; [| by intros []].
    rewrite list_lookup_insert_ne; [done | congruence].
  - destruct (tasks s !! j) as [[| t0 |] |] eqn:Hj; try discriminate.
    destruct (fetch_head o t0 t (stats s)) as [st r'].
    injection Hev as <-. cbn [tasks completed_indices flat_map app].
    assert (j <> i) as Hne by congruence.
    split; [by rewrite list_lookup_insert_ne | intros [? | []]; done].
Qed.

Lemma exec_trace_finished (evs : list run_event) :
  forall (s s' : run_state) (i : nat) (r : fetch_result),
  exec_trace s evs = Some s' ->
  tasks s !! i = Some (Finished r) ->
  ~ In i (completed_indices evs).
Proof.
  induction evs as [| ev evs IH]; intros s s' i r Hrun Hi; [by intros [] |].
  simpl in Hrun. destruct (exec_event s ev) as [s1 |] eqn:Hev; [| discriminate].
  destruct (exec_event_finished s s1 ev i r Hev Hi) as [Hi1 Hnot].
  rewrite completed_indices_cons.
  intros [H | H]%in_app_or; [done |]. by apply (IH s1 s' i r Hrun Hi1).
Qed.

Lemma exec_trace_once (evs : list run_event) : forall s s' : run_state,
  exec_trace s evs = Some s' ->
  List.NoDup (completed_indices evs) /\
  count_tasks is_finished (tasks s')
    = count_tasks is_finished (tasks s) + Z.of_nat (length (completed_indices evs)).
Proof.
  induction evs as [| ev evs IH]; intros s s' Hrun; simpl in Hrun.
  - injection Hrun as <-. split; [constructor | cbn; lia].
  - destruct (exec_event s ev) as [s1 |] eqn:Hev; [| discriminate].
    destruct (IH s1 s' Hrun) as [Hnd Hcount].
    destruct ev as [j t | j o t]; simpl in Hev.
    + destruct (tasks s !! j) as [[| |] |] eqn:Hj; try discriminate.
      destruct (0 <? sem_value s); [| discriminate].
      injection Hev as <-. cbn [tasks] in *.
      rewrite (count_tasks_insert _ _ _ _ _ Hj) in Hcount. cbn in Hcount.
      split; [exact Hnd |]. cbn [completed_indices flat_map app]. 
      change (flat_map _ evs) with (completed_indices evs). lia.
    + destruct (tasks s !! j) as [[| t0 |] |] eqn:Hj; try discriminate.
      destruct (fetch_head o t0 t (stats s)) as [st r] eqn:Hfh.
      injection Hev as <-.
      cbn [completed_indices flat_map app].
      change (flat_map _ evs) with (completed_indices evs).
      split.
      * constructor; [| exact Hnd].
        apply (exec_trace_finished evs _ s' j r Hrun). cbn [tasks].
        apply list_lookup_insert_eq. by eapply lookup_lt_Some.
      * cbn [tasks] in Hcount.
        rewrite (count_tasks_insert _ _ _ _ _ Hj) in Hcount. cbn in Hcount.
        cbn [length]. lia.
Qed.

(** X18.  No request is made twice: the tasks whose requests ended in a
    schedule are pairwise distinct tasks of the run and as many as the
    tasks that have finished; when [gather] has nothing left to wait for,
    every one of the [request_count] tasks has made its request exactly
    once. *)
Theorem X18_every_request_once
    (cfg : RunConfig) (evs : list run_event) (s : run_state) :
  run_main cfg evs = Some s ->
  List.NoDup (completed_indices evs) /\
  Z.of_nat (length (completed_indices evs)) = count_tasks is_finished (tasks s) /\
  (all_finished s = true ->
   length (completed_indices evs) = length (range (request_count cfg))).
Proof.
  unfold run_main. destruct (main_init cfg) as [s0 |] eqn:H0; [| discriminate].
  intros Hrun. destruct (exec_trace_once evs s0 s Hrun) as [Hnd Hcount].
  destruct (exec_trace_stage evs s0 s Hrun) as [Hlen _].
  assert (length (tasks s0) = length (range (request_count cfg))
          /\ count_tasks is_finished (tasks s0) = 0) as [Hl0 Hf0].
  { unfold main_init in H0. destruct (concurrency cfg <? 0); [discriminate |].
    injection H0 as <-. cbn [tasks].
    by rewrite length_replicate, count_tasks_replicate_false. }
  split; [exact Hnd |]. split; [lia |].
  intros Hall. unfold all_finished in Hall.
  rewrite (count_finished_all _ Hall) in Hcount. lia.
Qed.

Lemma X18_every_request_once_witness :
  exists s : run_state,
    run_main (mkConfig "http://localhost:8000/" 3 2)
      [Acquire 2 0; Acquire 0 0; Complete 0 (Responded 200) 1;
       Acquire 1 1; Complete 2 (Responded 200) 2;
       Complete 1 (Raised ClientConnectorError) 3] = Some s /\
    completed_indices
      [Acquire 2 0; Acquire 0 0; Complete 0 (Responded 200) 1;
       Acquire 1 1; Complete 2 (Responded 200) 2;
       Complete 1 (Raised ClientConnectorError) 3] = [0; 2; 1]%nat /\
    exec_event s (Complete 0 (Responded 200) 4) = None /\
    List.NoDup [0; 2; 1]%nat.
Proof.
  eexists. split; [vm_compute; reflexivity |]. split; [reflexivity |].
  split; [reflexivity |].
  refine (proj1 (X18_every_request_once (mkConfig "http://localhost:8000/" 3 2)
    [Acquire 2 0; Acquire 0 0; Complete 0 (Responded 200) 1;
     Acquire 1 1; Complete 2 (Responded 200) 2;
     Complete 1 (Raised ClientConnectorError) 3] _ _)).
  vm_compute. reflexivity.
Defined.

(** X19.  A concurrency above the number of requests has no effect:
    never more tasks hold a slot than there are tasks, so for a
    non-negative [request_count] the holders are bounded by both
    [concurrency] and [request_count], and at least
    [concurrency - request_count] slots stay free throughout. *)
Theorem X19_holders_bounded_by_requests
    (cfg : RunConfig) (evs : list run_event) (s : run_state) :
  0 <= request_count cfg ->
  run_main cfg evs = Some s ->
  holders s <= Z.min (concurrency cfg) (request_count cfg) /\
  concurrency cfg - request_count cfg <= sem_value s.
Proof.
  intros Hn Hrun.
  destruct (run_main_gate cfg evs s Hrun) as [Hfree Hsum].
  destruct (run_main_bookkeeping cfg evs s Hrun) as (_ & Hlen & _).
  pose proof (count_tasks_le_length is_holding (tasks s)) as Hle.
  unfold holders in *. rewrite Hlen in Hle. unfold range in Hle.
  rewrite length_seqZ in Hle. lia.
Qed.

Lemma X19_holders_bounded_by_requests_witness :
  exists s : run_state,
    0 <= 2 /\
    run_main (mkConfig "http://localhost:8000/" 2 100)
      [Acquire 0 0; Acquire 1 0] = Some s /\
    holders s = 2 /\ sem_value s = 98 /\
    holders s <= Z.min 100 2.
Proof.
  eexists. split; [lia |]. split; [vm_compute; reflexivity |].
  split; [reflexivity |]. split; [reflexivity |].
  refine (proj1 (X19_holders_bounded_by_requests
    (mkConfig "http://localhost:8000/" 2 100) [Acquire 0 0; Acquire 1 0] _ _ _)).
  - simpl. lia.
  - vm_compute. reflexivity.
Defined.
